(** * Support chat bridge: webhook handler, synchronization store, chat input

    A shallow embedding of

    - the Telegram webhook route handler ([POST] and its helper
      [downloadAndUploadTelegramPhoto]),
    - the Zustand store [useSupportStore] of [src/store/support-store.ts]
      together with the module-level [activeSubscription] slot,
    - the render branch and the event handlers of [SupportChatInput],

    and the properties of these that the specification states. *)

From Stdlib Require Import ZArith String Ascii.
From stdpp Require Import base decidable option list strings gmap.

Local Open Scope string_scope.
Local Open Scope list_scope.

(** ** JavaScript truthiness of the values the code tests *)

(** [x || undefined] and [if (x)] on a [string | null | undefined]: the empty
    string is falsy like [null]. The result keeps the string when truthy. *)
Definition truthy (o : option string) : option string :=
  match o with
  | Some s => if decide (s = "") then None else Some s
  | None => None
  end.

(** The same for a [number | null | undefined]: [0] is falsy. *)
Definition truthyZ (o : option Z) : option Z :=
  match o with
  | Some z => if decide (z = 0%Z) then None else Some z
  | None => None
  end.

(** ** Entities shared by the server and the browser *)

Inductive ConversationStatus := StatusOpen | StatusResolved | StatusClosed.

Inductive SenderType := SenderUser | SenderSupport.

#[global] Instance ConversationStatus_eq_dec : EqDecision ConversationStatus.
Proof. solve_decision. Defined.

#[global] Instance SenderType_eq_dec : EqDecision SenderType.
Proof. solve_decision. Defined.

(** [SupportConversation] of [@/types/support]; the fields are the ones the
    code and the data model name. *)
Record SupportConversation := {
  conv_id : string;
  conv_anonymous_id : string;
  conv_status : ConversationStatus;
  conv_telegram_thread_id : option Z;
  conv_created_at : string;
  conv_last_message_at : option string;
}.

(** [SupportMessage], field for field as [sendMessage] builds it. *)
Record SupportMessage := {
  msg_id : string;
  msg_conversation_id : string;
  msg_sender_type : SenderType;
  msg_sender_name : option string;
  msg_sender_telegram_id : option Z;
  msg_content : option string;
  msg_image_url : option string;
  msg_telegram_message_id : option Z;
  msg_is_read : bool;
  msg_read_at : option string;
  msg_created_at : string;
}.

(** * The webhook route handler *)

Module Webhook.

(** ** Payload types ([TelegramUpdate] of [@/types/support]) *)

Record TelegramUser := {
  user_id : Z;
  user_is_bot : bool;
  user_first_name : string;
}.

Record PhotoSize := { file_id : string }.

(** The update is parsed JSON: [from], [text], [caption] and [photo] may be
    absent at run time, and the handler reads [message.from.is_bot] without
    a guard, which throws when [from] is absent. *)
Record TelegramMessage := {
  message_id : Z;
  message_from : option TelegramUser;
  message_thread_id : option Z;
  message_chat_id : Z;
  message_text : option string;
  message_caption : option string;
  message_photo : option (list PhotoSize);
}.

Record TelegramUpdate := {
  update_id : Z;
  update_message : option TelegramMessage;
}.

(** What the handler reads of the [NextRequest]: the secret header
    ([headers.get] gives [null] when absent) and the body, [None] when
    [req.json()] rejects. *)
Record Request := {
  req_secret_token : option string;
  req_json : option TelegramUpdate;
}.

(** [process.env] at call time. *)
Record Env := {
  TELEGRAM_WEBHOOK_SECRET : option string;
  TELEGRAM_BOT_TOKEN : option string;
}.

Inductive ResponseBody := BodyOk | BodyError (error : string).

Record Response := { resp_status : Z; resp_body : ResponseBody }.

(** [NextResponse.json({ ok: true })] *)
Definition json_ok : Response := {| resp_status := 200; resp_body := BodyOk |}.

(** [NextResponse.json({ error }, { status })] *)
Definition json_error (error : string) (status : Z) : Response :=
  {| resp_status := status; resp_body := BodyError error |}.

(** ** Collaborators *)

(** An awaited call either returns or throws (rejects). *)
Inductive Outcome (A : Type) := Returned (a : A) | Thrown.
Arguments Returned {A} a.
Arguments Thrown {A}.

(** The argument of [supportService.createMessage]. *)
Record CreateMessageInput := {
  cm_conversation_id : string;
  cm_sender_type : SenderType;
  cm_sender_name : string;
  cm_sender_telegram_id : Z;
  cm_content : option string;
  cm_image_url : option string;
}.

(** JSON of [getFile]: [{ ok, result: { file_path } }]. *)
Record GetFileResult := { file_path : option string }.
Record GetFileResponse := { gf_ok : bool; gf_result : option GetFileResult }.

(** The download response: [ok], the [content-type] header, and
    [arrayBuffer()], which may reject. *)
Record DownloadResponse := {
  dl_ok : bool;
  dl_content_type : option string;
  dl_arrayBuffer : Outcome string;
}.

(** [{ data, error }] of [storage.upload]. *)
Inductive UploadResult := UploadError | UploadData (path : string).

(** The services the handler imports ([supportService], [telegramService],
    [fetch], the storage client) and the two impure reads of the helper
    ([Date.now()], [Math.random().toString(36).substring(2, 15)]). Their code
    is outside the handler; they are parameters of the model. *)
Record Services := {
  isFromSupportGroup : TelegramMessage -> bool;
  extractThreadId : TelegramMessage -> option Z;
  isConfigured : bool;
  getConversationByThreadId : Z -> Outcome (option SupportConversation);
  sendMessageToTopic : Z -> string -> string -> Outcome unit;
  createMessage : CreateMessageInput -> Outcome SupportMessage;
  setMessageTelegramId : string -> Z -> Outcome unit;
  fetchGetFile : string -> string -> Outcome GetFileResponse;
  fetchDownload : string -> string -> Outcome DownloadResponse;
  storageUpload : string -> string -> string -> Outcome UploadResult;
  getPublicUrl : string -> string;
  date_now : string;
  random_string : string;
}.

(** Every call that leaves the handler is recorded, in order. *)
Inductive Call :=
  | CGetConversationByThreadId (threadId : Z)
  | CSendMessageToTopic (threadId : Z) (html label : string)
  | CGetFile (botToken fileId : string)
  | CDownloadFile (botToken filePath : string)
  | CUpload (filename contentType : string)
  | CCreateMessage (input : CreateMessageInput)
  | CSetMessageTelegramId (messageId : string) (telegramId : Z).

(** ** The handler monad: a trace of calls, and exceptions *)

Definition Handler (A : Type) : Type := list Call -> Outcome A * list Call.

Definition ret {A} (a : A) : Handler A := fun tr => (Returned a, tr).

Definition throw {A} : Handler A := fun tr => (Thrown, tr).

Definition bind {A B} (m : Handler A) (k : A -> Handler B) : Handler B :=
  fun tr =>
    match m tr with
    | (Returned a, tr') => k a tr'
    | (Thrown, tr') => (Thrown, tr')
    end.

(** [await service(...)]: the call is recorded, then it returns or throws. *)
Definition call {A} (c : Call) (o : Outcome A) : Handler A :=
  fun tr => (o, tr ++ [c]).

(** [await p] of a promise already at hand: nothing is called. *)
Definition await {A} (o : Outcome A) : Handler A := fun tr => (o, tr).

(** [try { m } catch { h }] *)
Definition try_catch {A} (m h : Handler A) : Handler A :=
  fun tr =>
    match m tr with
    | (Returned a, tr') => (Returned a, tr')
    | (Thrown, tr') => h tr'
    end.

(** Reading a property of a value that may be [undefined]. *)
Definition field {A} (o : option A) : Handler A :=
  match o with
  | Some a => ret a
  | None => throw
  end.

Declare Scope handler_scope.
Delimit Scope handler_scope with handler.
Notation "'let!' x ':=' m 'in' k" := (bind m (fun x => k))
  (at level 10, x name, m at level 100, k at level 200,
   format "'[v' 'let!'  x  ':='  m  'in' '/' k ']'") : handler_scope.
Notation "'do!' m 'in' k" := (bind m (fun _ => k))
  (at level 10, m at level 100, k at level 200,
   format "'[v' 'do!'  m  'in' '/' k ']'") : handler_scope.

(** The messages a run handed to persistence: its [createMessage] calls. *)
Definition persisted (tr : list Call) : list CreateMessageInput :=
  omap (fun c => match c with CCreateMessage i => Some i | _ => None end) tr.

(** The warnings a run posted to a topic. *)
Definition warnings (tr : list Call) : list Z :=
  omap (fun c => match c with CSendMessageToTopic t _ _ => Some t | _ => None end) tr.

(** [filePath.split('.').pop()]: the text after the last dot (all of it
    when there is none). *)
Fixpoint split_pop (s acc : string) : string :=
  match s with
  | EmptyString => acc
  | String c rest =>
      if Ascii.eqb c "."%char then split_pop rest ""
      else split_pop rest (acc +:+ String c "")
  end.

(** [`telegram_${timestamp}_${randomString}.${extension}`], with the
    extension of the file path or [jpg]. *)
Definition photo_filename (timestamp randomString filePath : string) : string :=
  let extension := default "jpg" (truthy (Some (split_pop filePath ""))) in
  "telegram_" +:+ timestamp +:+ "_" +:+ randomString +:+ "." +:+ extension.

(** [message.text || message.caption || undefined] *)
Definition message_content (message : TelegramMessage) : option string :=
  match truthy (message_text message) with
  | Some t => Some t
  | None => truthy (message_caption message)
  end.

Definition warning_html : string :=
  "⚠️ <b>Warning:</b> This topic is not linked to any active conversation.".

Section Handler.

Variable env : Env.
Variable svc : Services.

Local Open Scope handler_scope.

(** [downloadAndUploadTelegramPhoto(fileId, botToken)] *)
Definition downloadAndUploadTelegramPhoto (fileId botToken : string)
  : Handler (option string) :=
  try_catch
    (let! fileData := call (CGetFile botToken fileId) (fetchGetFile svc botToken fileId) in
     if negb (gf_ok fileData) then ret None else
     let! result := field (gf_result fileData) in
     match truthy (file_path result) with
     | None => ret None
     | Some filePath =>
       let! downloadResponse := call (CDownloadFile botToken filePath)
                                (fetchDownload svc botToken filePath) in
       if negb (dl_ok downloadResponse) then ret None else
       let! fileBlob := await (dl_arrayBuffer downloadResponse) in
       let filename := photo_filename (date_now svc) (random_string svc) filePath in
       let contentType := default "image/jpeg" (truthy (dl_content_type downloadResponse)) in
       let! uploaded := call (CUpload filename contentType)
                        (storageUpload svc filename fileBlob contentType) in
       match uploaded with
       | UploadError => ret None
       | UploadData path => ret (Some (getPublicUrl svc path))
       end
     end)
    (ret None).

(** [POST(req)] *)
Definition POST (req : Request) : Handler Response :=
  try_catch
    (let secretToken := req_secret_token req in
     match truthy (TELEGRAM_WEBHOOK_SECRET env) with
     | None => ret (json_error "Webhook not configured" 500)
     | Some expectedSecret =>
       if negb (bool_decide (secretToken = Some expectedSecret))
       then ret (json_error "Unauthorized" 401) else
       match req_json req with
       | None => ret (json_error "Invalid JSON" 400)
       | Some update =>
         match update_message update with
         | None => ret json_ok
         | Some message =>
           if negb (isFromSupportGroup svc message) then ret json_ok else
           match truthyZ (extractThreadId svc message) with
           | None => ret json_ok
           | Some threadId =>
             let! from := field (message_from message) in
             if user_is_bot from then ret json_ok else
             let! conversation := call (CGetConversationByThreadId threadId)
                                  (getConversationByThreadId svc threadId) in
             match conversation with
             | None =>
               do! (if isConfigured svc
                    then try_catch
                           (call (CSendMessageToTopic threadId warning_html "System")
                                 (sendMessageToTopic svc threadId warning_html "System"))
                           (ret tt)
                    else ret tt) in
               ret json_ok
             | Some conversation =>
               let content := message_content message in
               let! imageUrl :=
                 match message_photo message with
                 | Some (p :: ps) =>
                   let largestPhoto := List.last (p :: ps) p in
                   let fileId := file_id largestPhoto in
                   match truthy (TELEGRAM_BOT_TOKEN env) with
                   | Some botToken =>
                     let! url := downloadAndUploadTelegramPhoto fileId botToken in
                     ret (truthy url)
                   | None => ret None
                   end
                 | _ => ret None
                 end in
               if negb (bool_decide (is_Some content)) && negb (bool_decide (is_Some imageUrl))
               then ret json_ok else
               let input :=
                 {| cm_conversation_id := conv_id conversation;
                    cm_sender_type := SenderSupport;
                    cm_sender_name := user_first_name from;
                    cm_sender_telegram_id := user_id from;
                    cm_content := content;
                    cm_image_url := imageUrl |} in
               let! supportMessage := call (CCreateMessage input) (createMessage svc input) in
               do! call (CSetMessageTelegramId (msg_id supportMessage) (message_id message))
                        (setMessageTelegramId svc (msg_id supportMessage) (message_id message)) in
               ret json_ok
             end
           end
         end
       end
     end)
    (ret json_ok).

End Handler.

(** The ways the image pipeline fails: the file metadata ([getFile]), the
    download, or the upload to storage. *)
Inductive image_pipeline_fails (svc : Services) (botToken fileId : string) : Prop :=
  | metadata_throws :
      fetchGetFile svc botToken fileId = Thrown ->
      image_pipeline_fails svc botToken fileId
  | metadata_not_ok fileData :
      fetchGetFile svc botToken fileId = Returned fileData ->
      gf_ok fileData = false ->
      image_pipeline_fails svc botToken fileId
  | metadata_without_result fileData :
      fetchGetFile svc botToken fileId = Returned fileData ->
      gf_result fileData = None ->
      image_pipeline_fails svc botToken fileId
  | metadata_without_path fileData result :
      fetchGetFile svc botToken fileId = Returned fileData ->
      gf_result fileData = Some result ->
      truthy (file_path result) = None ->
      image_pipeline_fails svc botToken fileId
  | download_fails fileData result filePath :
      fetchGetFile svc botToken fileId = Returned fileData ->
      gf_result fileData = Some result ->
      truthy (file_path result) = Some filePath ->
      fetchDownload svc botToken filePath = Thrown ->
      image_pipeline_fails svc botToken fileId
  | download_not_ok fileData result filePath downloadResponse :
      fetchGetFile svc botToken fileId = Returned fileData ->
      gf_result fileData = Some result ->
      truthy (file_path result) = Some filePath ->
      fetchDownload svc botToken filePath = Returned downloadResponse ->
      dl_ok downloadResponse = false \/ dl_arrayBuffer downloadResponse = Thrown ->
      image_pipeline_fails svc botToken fileId
  | upload_fails fileData result filePath downloadResponse fileBlob :
      fetchGetFile svc botToken fileId = Returned fileData ->
      gf_result fileData = Some result ->
      truthy (file_path result) = Some filePath ->
      fetchDownload svc botToken filePath = Returned downloadResponse ->
      dl_arrayBuffer downloadResponse = Returned fileBlob ->
      (let filename := photo_filename (date_now svc) (random_string svc) filePath in
       let contentType := default "image/jpeg" (truthy (dl_content_type downloadResponse)) in
       storageUpload svc filename fileBlob contentType = Thrown \/
       storageUpload svc filename fileBlob contentType = Returned UploadError) ->
      image_pipeline_fails svc botToken fileId.

(** A run of a handler from the empty trace. *)
Definition run {A} (h : Handler A) : Outcome A * list Call := h [].

(** The request passed step 1: a secret is configured and the header
    carries it. *)
Definition authenticated (env : Env) (req : Request) : Prop :=
  match truthy (TELEGRAM_WEBHOOK_SECRET env) with
  | Some expectedSecret => req_secret_token req = Some expectedSecret
  | None => False
  end.

(** The platform message ids a run attached: its [setMessageTelegramId]
    calls. *)
Definition telegram_ids (tr : list Call) : list (string * Z) :=
  omap (fun c => match c with CSetMessageTelegramId i t => Some (i, t) | _ => None end) tr.

(** The image pipeline goes through for the file [fileId]: the metadata
    names [filePath], the download is ok, and the upload of its bytes under
    the name the helper builds stores them at [path]. *)
Inductive image_pipeline_succeeds (svc : Services)
  (botToken fileId filePath contentType path : string) : Prop :=
  | pipeline_ok fileData result downloadResponse fileBlob :
      fetchGetFile svc botToken fileId = Returned fileData ->
      gf_ok fileData = true ->
      gf_result fileData = Some result ->
      truthy (file_path result) = Some filePath ->
      fetchDownload svc botToken filePath = Returned downloadResponse ->
      dl_ok downloadResponse = true ->
      dl_arrayBuffer downloadResponse = Returned fileBlob ->
      contentType = default "image/jpeg" (truthy (dl_content_type downloadResponse)) ->
      storageUpload svc (photo_filename (date_now svc) (random_string svc) filePath)
        fileBlob contentType = Returned (UploadData path) ->
      image_pipeline_succeeds svc botToken fileId filePath contentType path.

(** A handler that, run from any trace, answers the acknowledgment or
    throws. *)
Definition acknowledges (h : Handler Response) : Prop :=
  forall tr, fst (h tr) = Returned json_ok \/ fst (h tr) = Thrown.

(** The [configured] object of [GET]: [!!process.env.X] for the three
    variables. [TELEGRAM_FORUM_GROUP_ID] is read by no other code here and
    is passed beside [env]. *)
Record WebhookInfo := {
  configured_bot_token : bool;
  configured_forum_group_id : bool;
  configured_webhook_secret : bool;
}.

(** [GET()] *)
Definition GET (env : Env) (TELEGRAM_FORUM_GROUP_ID : option string) : WebhookInfo :=
  {| configured_bot_token := bool_decide (is_Some (truthy (TELEGRAM_BOT_TOKEN env)));
     configured_forum_group_id := bool_decide (is_Some (truthy TELEGRAM_FORUM_GROUP_ID));
     configured_webhook_secret :=
       bool_decide (is_Some (truthy (TELEGRAM_WEBHOOK_SECRET env))) |}.

(** The calls of the image helper. *)
Definition image_call (c : Call) : bool :=
  match c with
  | CGetFile _ _ | CDownloadFile _ _ | CUpload _ _ => true
  | _ => false
  end.

(** The file id [POST] hands to the image helper, when the message has a
    non-empty photo array. *)
Definition photo_file_id (message : TelegramMessage) : option string :=
  match message_photo message with
  | Some (p :: ps) => Some (file_id (List.last (p :: ps) p))
  | _ => None
  end.

(** What the image step of [POST] yields from the trace [tr]: the URL
    [imageUrl] after the calls [calls]. *)
Definition image_step_yields (env : Env) (svc : Services) (message : TelegramMessage)
  (tr : list Call) (imageUrl : option string) (calls : list Call) : Prop :=
  match photo_file_id message, truthy (TELEGRAM_BOT_TOKEN env) with
  | Some fileId, Some botToken =>
      exists url,
        downloadAndUploadTelegramPhoto svc fileId botToken tr = (Returned url, tr ++ calls) /\
        imageUrl = truthy url
  | _, _ => imageUrl = None /\ calls = []
  end.

(** The argument [POST] builds for [createMessage]. *)
Definition support_message_input (conversation : SupportConversation) (from : TelegramUser)
  (content imageUrl : option string) : CreateMessageInput :=
  {| cm_conversation_id := conv_id conversation;
     cm_sender_type := SenderSupport;
     cm_sender_name := user_first_name from;
     cm_sender_telegram_id := user_id from;
     cm_content := content;
     cm_image_url := imageUrl |}.

(** No dot occurs in the string. *)
Fixpoint dotless (s : string) : bool :=
  match s with
  | EmptyString => true
  | String c rest => negb (Ascii.eqb c "."%char) && dotless rest
  end.

End Webhook.

(** * The client synchronization store *)

Module Store.

(** ** State *)

(** The data fields of [SupportState]. *)
Record SupportState := {
  isOpen : bool;
  unreadCount : Z;
  conversations : list SupportConversation;
  currentConversation : option SupportConversation;
  messages : list SupportMessage;
  isLoading : bool;
  isSending : bool;
  error : option string;
}.

(** The keys of [localStorage] the store reads and writes, by what they
    hold: the visitor id under [support_anonymous_id], and under each
    [support_messages_<id>] the JSON of a message array, kept here as the
    array it parses to ([JSON.parse (JSON.stringify l) = l] on arrays of
    messages). Writes always succeed. *)
Record LocalStorage := {
  support_anonymous_id : option string;
  support_messages : gmap string (list SupportMessage);
}.

(** A channel of the realtime client, with the conversation id its handler
    closed over. *)
Record Channel := { ch_id : nat; ch_conversationId : string }.

(** The module-level [activeSubscription] slot. The [unsubscribe] closure is
    kept as the channel it captured. *)
Record Subscription := {
  sub_conversationId : string;
  sub_unsubscribe : nat;
}.

(** Everything the store's code reads or writes: the Zustand state, the
    device storage, the subscription slot, the channels open in the realtime
    client, and the [setTimeout] callbacks not yet run (by the placeholder
    id each one captured). *)
Record World := {
  store : SupportState;
  localStorage : LocalStorage;
  activeSubscription : option Subscription;
  channels : list Channel;
  next_channel : nat;
  timers : list string;
}.

(** ** [set] and [get] *)

Definition with_store (f : SupportState -> SupportState) (w : World) : World :=
  {| store := f (store w); localStorage := localStorage w;
     activeSubscription := activeSubscription w; channels := channels w;
     next_channel := next_channel w; timers := timers w |}.

Definition set_isOpen (v : bool) (s : SupportState) : SupportState :=
  {| isOpen := v; unreadCount := unreadCount s; conversations := conversations s;
     currentConversation := currentConversation s; messages := messages s;
     isLoading := isLoading s; isSending := isSending s; error := error s |}.

Definition set_unreadCount (v : Z) (s : SupportState) : SupportState :=
  {| isOpen := isOpen s; unreadCount := v; conversations := conversations s;
     currentConversation := currentConversation s; messages := messages s;
     isLoading := isLoading s; isSending := isSending s; error := error s |}.

Definition set_conversations (v : list SupportConversation) (s : SupportState) : SupportState :=
  {| isOpen := isOpen s; unreadCount := unreadCount s; conversations := v;
     currentConversation := currentConversation s; messages := messages s;
     isLoading := isLoading s; isSending := isSending s; error := error s |}.

Definition set_currentConversation (v : option SupportConversation) (s : SupportState)
  : SupportState :=
  {| isOpen := isOpen s; unreadCount := unreadCount s; conversations := conversations s;
     currentConversation := v; messages := messages s;
     isLoading := isLoading s; isSending := isSending s; error := error s |}.

Definition set_messages (v : list SupportMessage) (s : SupportState) : SupportState :=
  {| isOpen := isOpen s; unreadCount := unreadCount s; conversations := conversations s;
     currentConversation := currentConversation s; messages := v;
     isLoading := isLoading s; isSending := isSending s; error := error s |}.

Definition set_isLoading (v : bool) (s : SupportState) : SupportState :=
  {| isOpen := isOpen s; unreadCount := unreadCount s; conversations := conversations s;
     currentConversation := currentConversation s; messages := messages s;
     isLoading := v; isSending := isSending s; error := error s |}.

Definition set_isSending (v : bool) (s : SupportState) : SupportState :=
  {| isOpen := isOpen s; unreadCount := unreadCount s; conversations := conversations s;
     currentConversation := currentConversation s; messages := messages s;
     isLoading := isLoading s; isSending := v; error := error s |}.

Definition set_error (v : option string) (s : SupportState) : SupportState :=
  {| isOpen := isOpen s; unreadCount := unreadCount s; conversations := conversations s;
     currentConversation := currentConversation s; messages := messages s;
     isLoading := isLoading s; isSending := isSending s; error := v |}.

(** [localStorage.setItem(key, JSON.stringify(l))] on a message cache key. *)
Definition setItem_messages (key : string) (l : list SupportMessage) (w : World) : World :=
  {| store := store w;
     localStorage :=
       {| support_anonymous_id := support_anonymous_id (localStorage w);
          support_messages := <[key := l]> (support_messages (localStorage w)) |};
     activeSubscription := activeSubscription w; channels := channels w;
     next_channel := next_channel w; timers := timers w |}.

Definition set_activeSubscription (v : option Subscription) (w : World) : World :=
  {| store := store w; localStorage := localStorage w;
     activeSubscription := v; channels := channels w;
     next_channel := next_channel w; timers := timers w |}.

Definition set_timers (v : list string) (w : World) : World :=
  {| store := store w; localStorage := localStorage w;
     activeSubscription := activeSubscription w; channels := channels w;
     next_channel := next_channel w; timers := v |}.

(** The store as [create] builds it, on a device with storage [ls]. *)
Definition initial_world (ls : LocalStorage) : World :=
  {| store :=
       {| isOpen := false; unreadCount := 0; conversations := [];
          currentConversation := None; messages := [];
          isLoading := false; isSending := false; error := None |};
     localStorage := ls;
     activeSubscription := None; channels := [];
     next_channel := 0; timers := [] |}.

(** [`support_messages_${conversationId}`] *)
Definition cacheKey (conversationId : string) : string :=
  "support_messages_" +:+ conversationId.

(** [String.prototype.startsWith] *)
Fixpoint startsWith (s searchString : string) {struct searchString} : bool :=
  match searchString with
  | EmptyString => true
  | String a rest =>
      match s with
      | String b s' => Ascii.eqb a b && startsWith s' rest
      | EmptyString => false
      end
  end.

(** [id.startsWith('temp_')] *)
Definition is_temp (id : string) : bool := startsWith id "temp_".

(** [`temp_${Date.now()}_${Math.random()}`], from the two readings. *)
Definition make_tempId (now random : string) : string :=
  "temp_" +:+ now +:+ "_" +:+ random.

(** ** UI actions *)

Definition openWidget (w : World) : World :=
  with_store (fun s => set_error None (set_unreadCount 0 (set_isOpen true s))) w.

Definition closeWidget (w : World) : World := with_store (set_isOpen false) w.

Definition resetUnreadCount (w : World) : World := with_store (set_unreadCount 0) w.

Definition incrementUnreadCount (w : World) : World :=
  with_store (fun s => set_unreadCount (unreadCount s + 1) s) w.

Definition setError (e : option string) (w : World) : World := with_store (set_error e) w.

(** ** Realtime subscription *)

(** The closure [unsubscribe] that [subscribeToMessages] builds for the
    channel [ch]: [supabase.removeChannel(channel); activeSubscription = null]. *)
Definition unsubscribe (ch : nat) (w : World) : World :=
  {| store := store w; localStorage := localStorage w;
     activeSubscription := None;
     channels := filter (fun c => ch_id c <> ch) (channels w);
     next_channel := next_channel w; timers := timers w |}.

(** The handler of [INSERT] events that [subscribeToMessages] registers on
    the channel of [conversationId]. *)
Definition onInsert (conversationId : string) (newMessage : SupportMessage) (w : World)
  : World :=
  let state := store w in
  let messageExists :=
    bool_decide (Exists (fun m => msg_id m = msg_id newMessage) (messages state)) in
  if negb messageExists then
    let messagesWithoutTemp :=
      filter (fun m => is_temp (msg_id m) = false) (messages state) in
    let updatedMessages := messagesWithoutTemp ++ [newMessage] in
    let w1 := with_store (set_messages updatedMessages) w in
    let w2 := setItem_messages (cacheKey conversationId) updatedMessages w1 in
    if bool_decide (msg_sender_type newMessage = SenderSupport) && negb (isOpen state)
    then with_store (set_unreadCount (unreadCount state + 1)) w2
    else w2
  else w.

(** [subscribeToMessages(conversationId)]; the result is the world and the
    [unsubscribe] closure returned (the channel it captured). *)
Definition subscribeToMessages (conversationId : string) (w : World) : World * nat :=
  let create (w : World) : World * nat :=
    let channel := next_channel w in
    ({| store := store w; localStorage := localStorage w;
        activeSubscription :=
          Some {| sub_conversationId := conversationId; sub_unsubscribe := channel |};
        channels := channels w ++ [{| ch_id := channel; ch_conversationId := conversationId |}];
        next_channel := S channel; timers := timers w |}, channel) in
  match activeSubscription w with
  | Some active =>
      if decide (sub_conversationId active = conversationId)
      then (w, sub_unsubscribe active)
      else create (unsubscribe (sub_unsubscribe active) w)
  | None => create w
  end.

(** ** Conversation actions *)

(** [loadConversations]: up to the [await], then the continuation on the
    response ([None]: the fetch failed or was not ok). *)
Definition loadConversations (w : World) : World :=
  with_store (fun s => set_error None (set_isLoading true s)) w.

Definition loadConversations_done (response : option (list SupportConversation)) (w : World)
  : World :=
  match response with
  | Some data => with_store (fun s => set_isLoading false (set_conversations data s)) w
  | None =>
      with_store (fun s => set_isLoading false
                             (set_error (Some "Failed to load conversations") s)) w
  end.

(** The response to [POST /api/support/conversations]. *)
Inductive CreateResponse :=
  | CreateFailed (message : string)
  | CreateOk (conversation : SupportConversation) (messages : option (list SupportMessage)).

Definition createConversation (w : World) : World :=
  with_store (fun s => set_error None (set_isLoading true s)) w.

Definition createConversation_done (response : CreateResponse) (w : World) : World :=
  match response with
  | CreateOk conversation msgs =>
      let w1 :=
        with_store (fun s => set_isLoading false
                               (set_messages (default [] msgs)
                                  (set_currentConversation (Some conversation) s))) w in
      fst (subscribeToMessages (conv_id conversation) w1)
  | CreateFailed message =>
      with_store (fun s => set_isLoading false (set_error (Some message) s)) w
  end.

(** [setCurrentConversation(conversation)]. The call of
    [loadConversationMessages] in it runs up to its [await fetch] and changes
    nothing before; its continuation is [loadConversationMessages_done]. *)
Definition setCurrentConversation (conversation : option SupportConversation) (w : World)
  : World :=
  let w1 :=
    match activeSubscription w with
    | Some active => set_activeSubscription None (unsubscribe (sub_unsubscribe active) w)
    | None => w
    end in
  match conversation with
  | Some c =>
      let cachedMessages := support_messages (localStorage w1) !! cacheKey (conv_id c) in
      let initialMessages := default [] cachedMessages in
      let w2 :=
        with_store (fun s => set_messages initialMessages
                               (set_currentConversation (Some c) s)) w1 in
      match truthy (support_anonymous_id (localStorage w2)) with
      | Some anonymousId => fst (subscribeToMessages (conv_id c) w2)
      | None => w2
      end
  | None =>
      with_store (fun s => set_messages [] (set_currentConversation None s)) w1
  end.

(** The response to [GET /api/support/conversations/<id>]: failed (the fetch
    threw or was not ok), or the [messages] field of its JSON. *)
Inductive LoadResponse :=
  | LoadFailed
  | LoadOk (messages : option (list SupportMessage)).

Definition loadConversationMessages_done
  (conversationId : string) (response : LoadResponse) (w : World) : World :=
  match response with
  | LoadOk data_messages =>
      let msgs := default [] data_messages in
      let w1 := with_store (set_messages msgs) w in
      if decide (0 < length msgs)
      then setItem_messages (cacheKey conversationId) msgs w1
      else w1
  | LoadFailed => with_store (set_error (Some "Failed to load messages")) w
  end.

(** [updateConversationStatus], continuation on the PATCH response. *)
Definition updateConversationStatus_done (response : option SupportConversation) (w : World)
  : World :=
  match response with
  | Some conversation => with_store (set_currentConversation (Some conversation)) w
  | None => with_store (set_error (Some "Failed to update conversation status")) w
  end.

(** ** Message actions *)

(** The optimistic placeholder of [sendMessage]. *)
Definition tempMessage (tempId conversationId content : string) (imageUrl : option string)
  (created_at : string) : SupportMessage :=
  {| msg_id := tempId;
     msg_conversation_id := conversationId;
     msg_sender_type := SenderUser;
     msg_sender_name := None;
     msg_sender_telegram_id := None;
     msg_content := truthy (Some content);
     msg_image_url := truthy imageUrl;
     msg_telegram_message_id := None;
     msg_is_read := false;
     msg_read_at := None;
     msg_created_at := created_at |}.

(** [sendMessage(content, imageUrl)] up to its [await fetch]; [now],
    [random] and [created_at] are the readings of [Date.now()],
    [Math.random()] and [new Date().toISOString()]. *)
Definition sendMessage (content : string) (imageUrl : option string)
  (now random created_at : string) (w : World) : World :=
  match currentConversation (store w) with
  | None => w
  | Some c =>
      match truthy (support_anonymous_id (localStorage w)) with
      | None => w
      | Some anonymousId =>
          let tempId := make_tempId now random in
          let tm := tempMessage tempId (conv_id c) content imageUrl created_at in
          with_store (fun s => set_error None
                                 (set_isSending true
                                    (set_messages (messages (store w) ++ [tm]) s))) w
      end
  end.

(** The response was ok: [setTimeout(cleanup, 500)] is queued. *)
Definition sendMessage_resolved (tempId : string) (w : World) : World :=
  set_timers (timers w ++ [tempId]) w.

(** The request failed: the [catch] branch. *)
Definition sendMessage_rejected (tempId message : string) (w : World) : World :=
  with_store (fun s => set_isSending false
                         (set_error (Some message)
                            (set_messages
                               (filter (fun m => msg_id m <> tempId) (messages s)) s))) w.

(** Remove the first pending callback of [tempId], if there is one. *)
Fixpoint take_timer (tempId : string) (l : list string) : option (list string) :=
  match l with
  | [] => None
  | t :: rest =>
      if decide (t = tempId) then Some rest
      else option_map (cons t) (take_timer tempId rest)
  end.

(** A queued cleanup callback runs. *)
Definition timer_fires (tempId : string) (w : World) : World :=
  match take_timer tempId (timers w) with
  | Some rest =>
      with_store (fun s => set_isSending false
                             (set_messages
                                (filter (fun m => msg_id m <> tempId) (messages s)) s))
                 (set_timers rest w)
  | None => w
  end.

(** ** Runs of the store *)

(** What can happen to the store: a call of one of its actions, the
    continuation of a pending request, a timer, an [INSERT] event on a
    channel, and a call of an [unsubscribe] closure that
    [subscribeToMessages] returned. *)
Inductive Action :=
  | AOpenWidget
  | ACloseWidget
  | AResetUnreadCount
  | AIncrementUnreadCount
  | ASetError (e : option string)
  | ALoadConversations
  | ALoadConversationsDone (response : option (list SupportConversation))
  | ACreateConversation
  | ACreateConversationDone (response : CreateResponse)
  | ASetCurrentConversation (conversation : option SupportConversation)
  | ALoadConversationMessagesDone (conversationId : string) (response : LoadResponse)
  | AUpdateConversationStatusDone (response : option SupportConversation)
  | ASendMessage (content : string) (imageUrl : option string) (now random created_at : string)
  | ASendMessageResolved (tempId : string)
  | ASendMessageRejected (tempId message : string)
  | ATimerFires (tempId : string)
  | ASubscribeToMessages (conversationId : string)
  | AUnsubscribe (ch : nat)
  | ARealtimeInsert (ch : nat) (newMessage : SupportMessage).

Definition step (a : Action) (w : World) : World :=
  match a with
  | AOpenWidget => openWidget w
  | ACloseWidget => closeWidget w
  | AResetUnreadCount => resetUnreadCount w
  | AIncrementUnreadCount => incrementUnreadCount w
  | ASetError e => setError e w
  | ALoadConversations => loadConversations w
  | ALoadConversationsDone r => loadConversations_done r w
  | ACreateConversation => createConversation w
  | ACreateConversationDone r => createConversation_done r w
  | ASetCurrentConversation c => setCurrentConversation c w
  | ALoadConversationMessagesDone cid r => loadConversationMessages_done cid r w
  | AUpdateConversationStatusDone r => updateConversationStatus_done r w
  | ASendMessage content imageUrl now random created_at =>
      sendMessage content imageUrl now random created_at w
  | ASendMessageResolved tempId => sendMessage_resolved tempId w
  | ASendMessageRejected tempId message => sendMessage_rejected tempId message w
  | ATimerFires tempId => timer_fires tempId w
  | ASubscribeToMessages cid => fst (subscribeToMessages cid w)
  | AUnsubscribe ch => unsubscribe ch w
  | ARealtimeInsert ch newMessage =>
      match List.find (fun c => bool_decide (ch_id c = ch)) (channels w) with
      | Some c => onInsert (ch_conversationId c) newMessage w
      | None => w
      end
  end.

Definition run_actions (acts : list Action) (w : World) : World :=
  fold_left (fun w a => step a w) acts w.

(** An [unsubscribe] closure is stale when the slot holds a subscription
    that is not the one the closure was built for. *)
Definition stale (ch : nat) (w : World) : Prop :=
  match activeSubscription w with
  | Some active => sub_unsubscribe active <> ch
  | None => False
  end.

Definition permitted (a : Action) (w : World) : Prop :=
  match a with
  | AUnsubscribe ch => ~ stale ch w
  | _ => True
  end.

(** The worlds the store reaches from its creation when no stale
    [unsubscribe] closure is called. *)
Inductive reachable (ls : LocalStorage) : World -> Prop :=
  | reachable_initial : reachable ls (initial_world ls)
  | reachable_step w a : reachable ls w -> permitted a w -> reachable ls (step a w).

(** The later steps of the send that created the placeholder [tempId]: its
    response, ok or not, and its cleanup timer. *)
Inductive send_lifecycle (tempId : string) : Action -> Prop :=
  | lifecycle_resolved : send_lifecycle tempId (ASendMessageResolved tempId)
  | lifecycle_rejected message : send_lifecycle tempId (ASendMessageRejected tempId message)
  | lifecycle_timer : send_lifecycle tempId (ATimerFires tempId).

(** The slot and the realtime client agree: the open channels are exactly
    the channel of the subscription in the slot, if there is one. *)
Definition slot_tracks_channels (w : World) : Prop :=
  channels w =
  match activeSubscription w with
  | Some active =>
      [{| ch_id := sub_unsubscribe active; ch_conversationId := sub_conversationId active |}]
  | None => []
  end.

(** The realtime subscriptions that are active: the open channels. *)
Definition active_subscriptions (w : World) : list string :=
  map ch_conversationId (channels w).

(** How many messages of a list show the text [text]. *)
Definition count_content (text : string) (l : list SupportMessage) : nat :=
  length (filter (fun m => msg_content m = Some text) l).

(** No cached list holds a placeholder. *)
Definition cache_clean (ls : LocalStorage) : Prop :=
  forall key l,
    support_messages ls !! key = Some l ->
    Forall (fun m => is_temp (msg_id m) = false) l.

(** The messages an action brings from the server carry server ids, not
    ids of the placeholder form. *)
Definition server_ids (a : Action) : Prop :=
  match a with
  | ALoadConversationMessagesDone _ (LoadOk (Some l)) =>
      Forall (fun m => is_temp (msg_id m) = false) l
  | ARealtimeInsert _ newMessage => is_temp (msg_id newMessage) = false
  | _ => True
  end.

End Store.

(** * The chat input component *)

Module ChatInput.

Import Store.

Record File := { file_type : string; file_size : Z }.

(** The [useState] cells of the component. *)
Record LocalState := {
  message : string;
  selectedImage : option File;
  imagePreview : option string;
  isUploading : bool;
  isSubmitting : bool;
}.

(** The two trees the component returns, by what they offer: the notice with
    the "Start New Ticket" button, or the panel with the error banner, the
    image preview and the form (file input, attach button, text input, send
    button). *)
Inductive View :=
  | ClosedPanel (notice : string)
  | InputPanel (errorBanner preview : option string) (value placeholder : string)
      (disabled sendDisabled : bool).

(** [String.prototype.trim], on the ASCII white space. *)
Fixpoint trimStart (s : string) : string :=
  match s with
  | String c rest => if Ascii.is_space c then trimStart rest else s
  | EmptyString => EmptyString
  end.

Definition trim (s : string) : string :=
  String.rev (trimStart (String.rev (trimStart s))).

(** The render function [SupportChatInput]. *)
Definition SupportChatInput (s : SupportState) (st : LocalState) : View :=
  let status := conv_status <$> currentConversation s in
  if bool_decide (status = Some StatusClosed) || bool_decide (status = Some StatusResolved)
  then
    ClosedPanel (if bool_decide (status = Some StatusClosed)
                 then "🔒 This conversation has been closed."
                 else "✅ This conversation has been resolved.")
  else
    let busy := isSending s || isUploading st || isSubmitting st in
    InputPanel (truthy (error s)) (truthy (imagePreview st)) (message st)
      (if bool_decide (is_Some (currentConversation s))
       then "Type your message..." else "Describe your issue...")
      busy
      (busy || (bool_decide (trim (message st) = "")
                && negb (bool_decide (is_Some (selectedImage st))))).

(** The requests the browser sends. *)
Inductive NetRequest :=
  | ReqUpload
  | ReqCreateConversation (anonymousId initialMessage : string)
  | ReqSendMessage (conversationId content : string) (imageUrl : option string).

(** The component in the page: the store, its own cells, and the requests
    sent so far. *)
Record UI := {
  world : World;
  local : LocalState;
  requests : list NetRequest;
}.

Definition with_world (f : World -> World) (ui : UI) : UI :=
  {| world := f (world ui); local := local ui; requests := requests ui |}.

Definition with_local (f : LocalState -> LocalState) (ui : UI) : UI :=
  {| world := world ui; local := f (local ui); requests := requests ui |}.

Definition send (r : NetRequest) (ui : UI) : UI :=
  {| world := world ui; local := local ui; requests := requests ui ++ [r] |}.

Definition setMessage (v : string) (st : LocalState) : LocalState :=
  {| message := v; selectedImage := selectedImage st; imagePreview := imagePreview st;
     isUploading := isUploading st; isSubmitting := isSubmitting st |}.

Definition setSelectedImage (v : option File) (st : LocalState) : LocalState :=
  {| message := message st; selectedImage := v; imagePreview := imagePreview st;
     isUploading := isUploading st; isSubmitting := isSubmitting st |}.

Definition setImagePreview (v : option string) (st : LocalState) : LocalState :=
  {| message := message st; selectedImage := selectedImage st; imagePreview := v;
     isUploading := isUploading st; isSubmitting := isSubmitting st |}.

Definition setIsUploading (v : bool) (st : LocalState) : LocalState :=
  {| message := message st; selectedImage := selectedImage st;
     imagePreview := imagePreview st; isUploading := v; isSubmitting := isSubmitting st |}.

Definition setIsSubmitting (v : bool) (st : LocalState) : LocalState :=
  {| message := message st; selectedImage := selectedImage st;
     imagePreview := imagePreview st; isUploading := isUploading st; isSubmitting := v |}.

Definition clearImage (st : LocalState) : LocalState :=
  setImagePreview None (setSelectedImage None st).

Definition allowedTypes : list string :=
  ["image/jpeg"; "image/png"; "image/gif"; "image/webp"].

(** [handleImageSelect]; [dataUrl] is what the [FileReader] gives. *)
Definition handleImageSelect (file : option File) (dataUrl : string) (ui : UI) : UI :=
  match file with
  | None => ui
  | Some f =>
      if negb (bool_decide (file_type f ∈ allowedTypes)) then
        with_world (setError
          (Some "Invalid file type. Only JPEG, PNG, GIF, and WebP are allowed.")) ui
      else if bool_decide (5 * 1024 * 1024 < file_size f)%Z then
        with_world (setError (Some "Image too large. Maximum size is 5MB.")) ui
      else with_local (fun st => setImagePreview (Some dataUrl) (setSelectedImage (Some f) st)) ui
  end.

(** What the environment answers during one submit: the upload ([None]: it
    failed) and the three readings [sendMessage] takes. *)
Record SubmitOracle := {
  upload_url : option string;
  clock_now : string;
  clock_random : string;
  clock_iso : string;
}.

(** [handleSubmit], up to the point where the store action it calls is
    awaiting its response. The request of [sendMessage] goes out only past
    the two guards of that action. *)
Definition handleSubmit (anonymousId : string) (o : SubmitOracle) (ui : UI) : UI :=
  let st := local ui in
  let s := store (world ui) in
  if isSubmitting st || isSending s || negb (bool_decide (is_Some (truthy (Some anonymousId))))
     || (bool_decide (trim (message st) = "")
         && negb (bool_decide (is_Some (selectedImage st))))
  then ui
  else
    let messageText := trim (message st) in
    let proceed (imageUrl : option string) (ui : UI) : UI :=
      let ui := with_local (fun st => clearImage (setMessage "" st)) ui in
      match currentConversation s with
      | None =>
          let initial := default "Image" (truthy (Some messageText)) in
          send (ReqCreateConversation anonymousId initial)
               (with_world createConversation ui)
      | Some c =>
          let ui' :=
            with_world (sendMessage messageText imageUrl
                          (clock_now o) (clock_random o) (clock_iso o)) ui in
          if bool_decide (is_Some (truthy (support_anonymous_id (localStorage (world ui)))))
          then send (ReqSendMessage (conv_id c) messageText imageUrl) ui'
          else ui'
      end in
    let ui := with_local (setIsSubmitting true) ui in
    match selectedImage st with
    | Some _ =>
        let ui := send ReqUpload (with_local (setIsUploading true) ui) in
        match upload_url o with
        | None =>
            with_local (fun st => setIsSubmitting false (setIsUploading false st))
              (with_world (setError (Some "Failed to upload image. Please try again.")) ui)
        | Some url => proceed (Some url) (with_local (setIsUploading false) ui)
        end
    | None => proceed None ui
    end.

(** The click handler of "Start New Ticket". *)
Definition startNewTicket (ui : UI) : UI :=
  with_world (setError None)
    (with_local (setMessage "")
       (with_world (with_store (fun s => set_messages [] (set_currentConversation None s))) ui)).

(** What the visitor can do to the page. *)
Inductive UIEvent :=
  | ClickStartNewTicket
  | SubmitForm (o : SubmitOracle)
  | ChangeMessage (value : string)
  | ChangeFile (file : option File) (dataUrl : string)
  | ClickAttach
  | ClickRemoveImage
  | ClickDismissError.

(** An event reaches a handler only through an element of the tree that was
    rendered. *)
Definition dispatch (anonymousId : string) (e : UIEvent) (ui : UI) : UI :=
  match SupportChatInput (store (world ui)) (local ui) with
  | ClosedPanel _ =>
      match e with
      | ClickStartNewTicket => startNewTicket ui
      | _ => ui
      end
  | InputPanel errorBanner preview _ _ disabled sendDisabled =>
      match e with
      | ClickStartNewTicket => ui
      | SubmitForm o => handleSubmit anonymousId o ui
      | ChangeMessage v => if disabled then ui else with_local (setMessage v) ui
      | ChangeFile f dataUrl => if disabled then ui else handleImageSelect f dataUrl ui
      | ClickAttach => ui
      | ClickRemoveImage =>
          if bool_decide (is_Some preview) then with_local clearImage ui else ui
      | ClickDismissError =>
          if bool_decide (is_Some errorBanner) then with_world (setError None) ui else ui
      end
  end.


(** The test at the head of [handleSubmit] lets the submit through. *)
Definition submittable (anonymousId : string) (ui : UI) : Prop :=
  isSubmitting (local ui) = false /\
  isSending (store (world ui)) = false /\
  anonymousId <> "" /\
  (trim (message (local ui)) <> "" \/ is_Some (selectedImage (local ui))).

End ChatInput.

(** * The storage bucket of the images *)

Module Bucket.

(** The [support-images] bucket as the migration creates it: public, 5MB
    per file, four image types. *)
Definition file_size_limit : Z := 5242880.

Definition allowed_mime_types : list string :=
  ["image/jpeg"; "image/png"; "image/gif"; "image/webp"].

(** The bucket takes a file of this type and size. *)
Definition accepts (mime : string) (size : Z) : Prop :=
  mime ∈ allowed_mime_types /\ (size <= file_size_limit)%Z.

End Bucket.

(** * The chat widget *)

Module Widget.

Section Restore.

(** [new Date(s).getTime()], for the timestamps the server writes. *)
Variable getTime : string -> Z.

(** [c.last_message_at || c.created_at], as a time. *)
Definition recency (c : SupportConversation) : Z :=
  getTime (default (conv_created_at c) (truthy (conv_last_message_at c))).

(** [Array.prototype.sort] with the comparator
    [(a, b) => recency(b) - recency(a)]: most recent first, and stable. *)
Fixpoint insert_sorted (c : SupportConversation) (sorted : list SupportConversation)
  : list SupportConversation :=
  match sorted with
  | [] => [c]
  | x :: rest =>
      if decide (recency x <= recency c)%Z then c :: x :: rest
      else x :: insert_sorted c rest
  end.

Definition sort (l : list SupportConversation) : list SupportConversation :=
  foldr insert_sorted [] l.

(** The head of a list is at least as recent as every element. *)
Definition head_most_recent (l : list SupportConversation) : Prop :=
  match l with
  | [] => True
  | h :: _ => forall x, x ∈ l -> (recency x <= recency h)%Z
  end.

(** The effect that restores the current conversation when the
    conversations are loaded: the conversation it passes to
    [setCurrentConversation], or [None] when it returns without calling it.
    [savedConversationId] is the item [support_current_conversation_id]. *)
Definition restoreConversation (savedConversationId : option string)
  (conversations : list SupportConversation)
  (currentConversation : option SupportConversation) : option SupportConversation :=
  if bool_decide (is_Some currentConversation) || bool_decide (length conversations = 0)
  then None
  else
    let mostRecent := head (sort conversations) in
    match truthy savedConversationId with
    | Some saved =>
        match List.find (fun c => bool_decide (conv_id c = saved)) conversations with
        | Some conversation => Some conversation
        | None => mostRecent
        end
    | None => mostRecent
    end.

End Restore.

End Widget.

(** * Sample data *)

Module Samples.

Import Webhook.

Definition conversation_a : SupportConversation :=
  {| conv_id := "conv-a"; conv_anonymous_id := "visitor-1"; conv_status := StatusOpen;
     conv_telegram_thread_id := Some 7%Z; conv_created_at := "2024-01-01T00:00:00.000Z";
     conv_last_message_at := None |}.

Definition conversation_b : SupportConversation :=
  {| conv_id := "conv-b"; conv_anonymous_id := "visitor-1"; conv_status := StatusOpen;
     conv_telegram_thread_id := Some 8%Z; conv_created_at := "2024-01-02T00:00:00.000Z";
     conv_last_message_at := None |}.

Definition stored_message (id : string) (content : option string) : SupportMessage :=
  {| msg_id := id; msg_conversation_id := "conv-a"; msg_sender_type := SenderUser;
     msg_sender_name := None; msg_sender_telegram_id := None;
     msg_content := content; msg_image_url := None;
     msg_telegram_message_id := None; msg_is_read := false; msg_read_at := None;
     msg_created_at := "2024-01-01T00:00:01.000Z" |}.

Definition env_ok : Env :=
  {| TELEGRAM_WEBHOOK_SECRET := Some "s3cret"; TELEGRAM_BOT_TOKEN := Some "123:abc" |}.

Definition env_without_bot_token : Env :=
  {| TELEGRAM_WEBHOOK_SECRET := Some "s3cret"; TELEGRAM_BOT_TOKEN := None |}.

(** A deployment where thread 7 belongs to [conversation_a], the platform
    refuses the warning post, and the file metadata request fails. *)
Definition services : Services :=
  {| isFromSupportGroup := fun m => bool_decide (message_chat_id m = (-100)%Z);
     extractThreadId := message_thread_id;
     isConfigured := true;
     getConversationByThreadId := fun t =>
       Returned (if decide (t = 7%Z) then Some conversation_a else None);
     sendMessageToTopic := fun _ _ _ => Thrown;
     createMessage := fun i =>
       Returned {| msg_id := "m-1"; msg_conversation_id := cm_conversation_id i;
                   msg_sender_type := cm_sender_type i;
                   msg_sender_name := Some (cm_sender_name i);
                   msg_sender_telegram_id := Some (cm_sender_telegram_id i);
                   msg_content := cm_content i; msg_image_url := cm_image_url i;
                   msg_telegram_message_id := None; msg_is_read := false;
                   msg_read_at := None; msg_created_at := "2024-01-01T00:00:02.000Z" |};
     setMessageTelegramId := fun _ _ => Returned tt;
     fetchGetFile := fun _ _ => Thrown;
     fetchDownload := fun _ _ => Thrown;
     storageUpload := fun _ _ _ => Thrown;
     getPublicUrl := fun path => path;
     date_now := "1700000000000";
     random_string := "k3j9x0q1z2" |}.

Definition agent : TelegramUser :=
  {| user_id := 42; user_is_bot := false; user_first_name := "Dana" |}.

Definition bot : TelegramUser :=
  {| user_id := 43; user_is_bot := true; user_first_name := "SupportBot" |}.

Definition telegram_message (from : TelegramUser) (thread : option Z) (text : option string)
  (photo : option (list PhotoSize)) : TelegramMessage :=
  {| message_id := 900; message_from := Some from; message_thread_id := thread;
     message_chat_id := (-100)%Z; message_text := text; message_caption := None;
     message_photo := photo |}.

Definition request (secret : option string) (message : option TelegramMessage) : Request :=
  {| req_secret_token := secret;
     req_json := Some {| update_id := 1; update_message := message |} |}.

Definition photos : list PhotoSize :=
  [{| file_id := "small" |}; {| file_id := "medium" |}; {| file_id := "large" |}].

(** A deployment like [services] where the image pipeline works: the file
    is at [photos/file_7.png] and is stored under the name it is given. *)
Definition services_with_images : Services :=
  {| isFromSupportGroup := isFromSupportGroup services;
     extractThreadId := extractThreadId services;
     isConfigured := true;
     getConversationByThreadId := getConversationByThreadId services;
     sendMessageToTopic := sendMessageToTopic services;
     createMessage := createMessage services;
     setMessageTelegramId := setMessageTelegramId services;
     fetchGetFile := fun _ _ =>
       Returned {| gf_ok := true;
                   gf_result := Some {| file_path := Some "photos/file_7.png" |} |};
     fetchDownload := fun _ _ =>
       Returned {| dl_ok := true; dl_content_type := None;
                   dl_arrayBuffer := Returned "bytes" |};
     storageUpload := fun filename _ _ => Returned (UploadData filename);
     getPublicUrl := fun path => "https://storage.example/support-images/" +:+ path;
     date_now := "1700000000000";
     random_string := "k3j9x0q1z2" |}.

(** A device that knows its visitor id, and one that does not. *)
Definition storage_with_visitor : Store.LocalStorage :=
  {| Store.support_anonymous_id := Some "visitor-1"; Store.support_messages := ∅ |}.

Definition storage_without_visitor : Store.LocalStorage :=
  {| Store.support_anonymous_id := None; Store.support_messages := ∅ |}.

(** The store after [conversation_a] was selected and its messages [l]
    loaded, subscribed on channel 0, with the widget closed. *)
Definition world_with (l : list SupportMessage) : Store.World :=
  {| Store.store :=
       {| Store.isOpen := false; Store.unreadCount := 0;
          Store.conversations := [conversation_a];
          Store.currentConversation := Some conversation_a;
          Store.messages := l;
          Store.isLoading := false; Store.isSending := false; Store.error := None |};
     Store.localStorage := storage_with_visitor;
     Store.activeSubscription :=
       Some {| Store.sub_conversationId := "conv-a"; Store.sub_unsubscribe := 0 |};
     Store.channels := [{| Store.ch_id := 0; Store.ch_conversationId := "conv-a" |}];
     Store.next_channel := 1; Store.timers := [] |}.

(** The chat input with a draft, over [world_with l]. *)
Definition ui_with (l : list SupportMessage) (draft : string)
  (image : option ChatInput.File) : ChatInput.UI :=
  {| ChatInput.world := world_with l;
     ChatInput.local :=
       {| ChatInput.message := draft; ChatInput.selectedImage := image;
          ChatInput.imagePreview := None; ChatInput.isUploading := false;
          ChatInput.isSubmitting := false |};
     ChatInput.requests := [] |}.

Definition png : ChatInput.File :=
  {| ChatInput.file_type := "image/png"; ChatInput.file_size := 20000 |}.

Definition oracle (upload : option string) : ChatInput.SubmitOracle :=
  {| ChatInput.upload_url := upload; ChatInput.clock_now := "1700000000000";
     ChatInput.clock_random := "0.42"; ChatInput.clock_iso := "2024-01-01T00:00:03.000Z" |}.

(** Times of the sample timestamps: the day of the month. *)
Definition sample_time (s : string) : Z :=
  if decide (s = "2024-01-01T00:00:00.000Z") then 1
  else if decide (s = "2024-01-02T00:00:00.000Z") then 2
  else if decide (s = "2024-01-03T00:00:00.000Z") then 3
  else 0.

Definition conversation_resolved : SupportConversation :=
  {| conv_id := "conv-r"; conv_anonymous_id := "visitor-1"; conv_status := StatusResolved;
     conv_telegram_thread_id := Some 9%Z; conv_created_at := "2024-01-03T00:00:00.000Z";
     conv_last_message_at := None |}.

(** The chat input with a typed text, over a store whose current
    conversation is resolved. *)
Definition ui_resolved : ChatInput.UI :=
  {| ChatInput.world :=
       Store.with_store (Store.set_currentConversation (Some conversation_resolved))
         (world_with [stored_message "m-1" (Some "Hello")]);
     ChatInput.local :=
       {| ChatInput.message := "one more thing"; ChatInput.selectedImage := None;
          ChatInput.imagePreview := None; ChatInput.isUploading := false;
          ChatInput.isSubmitting := false |};
     ChatInput.requests := [] |}.

End Samples.

(** * Properties of the webhook handler *)

Section WebhookProperties.

Import Webhook.

Lemma truthy_Some o s : truthy o = Some s -> o = Some s /\ s <> "".
Proof.
  destruct o as [t|]; simpl; [|discriminate].
  destruct (decide (t = "")); [discriminate|].
  intros [= ->]. split; [reflexivity | assumption].
Qed.

Lemma truthy_of_nonempty s : s <> "" -> truthy (Some s) = Some s.
Proof. intros H. simpl. destruct (decide (s = "")); [contradiction | reflexivity]. Qed.

Lemma truthy_None o : truthy o = None <-> o = None \/ o = Some "".
Proof.
  destruct o as [t|]; simpl.
  - destruct (decide (t = "")) as [->|Hne]; split.
    + intros _. right. reflexivity.
    + reflexivity.
    + discriminate.
    + intros [H|[= H]]; [discriminate | contradiction].
  - split; [intros _; left; reflexivity | reflexivity].
Qed.


Lemma authenticated_inv env req :
  authenticated env req ->
  exists expectedSecret,
    truthy (TELEGRAM_WEBHOOK_SECRET env) = Some expectedSecret /\
    req_secret_token req = Some expectedSecret.
Proof.
  unfold authenticated.
  destruct (truthy (TELEGRAM_WEBHOOK_SECRET env)) as [s|]; [|contradiction].
  intros H. exists s. split; [reflexivity | exact H].
Qed.

(** Unfold the handler monad down to pairs of outcome and trace. *)
Ltac handler_unfold :=
  unfold run, POST, downloadAndUploadTelegramPhoto, try_catch, bind, ret, throw, call,
    await, field.

(** The first steps of [POST] on a request that passes them: secret, body,
    message, origin, thread id, sender. *)
Ltac past_filters Hs Hh Hjson Hm Hg Ht Hf Hb :=
  handler_unfold;
  rewrite Hs, Hh, Hjson, Hm, Hg, Ht, Hf;
  rewrite bool_decide_eq_true_2 by reflexivity;
  simpl; rewrite Hb.

(** ** Step 1: the secret *)

Lemma POST_misconfigured env svc req tr :
  truthy (TELEGRAM_WEBHOOK_SECRET env) = None ->
  POST env svc req tr = (Returned (json_error "Webhook not configured" 500), tr).
Proof. intros H. handler_unfold. rewrite H. reflexivity. Qed.

Lemma POST_unauthorized env svc req tr expectedSecret :
  truthy (TELEGRAM_WEBHOOK_SECRET env) = Some expectedSecret ->
  req_secret_token req <> Some expectedSecret ->
  POST env svc req tr = (Returned (json_error "Unauthorized" 401), tr).
Proof.
  intros H Hne. handler_unfold. rewrite H.
  rewrite bool_decide_eq_false_2 by exact Hne. reflexivity.
Qed.

(** C3. When the secret header differs from the configured secret, or no
    secret is configured (unset or empty), the handler makes no call at all,
    so persists nothing, and answers with an error: 401 "Unauthorized" when
    a secret is configured, 500 "Webhook not configured" when none is. The
    body of the request is not looked at. *)
Theorem bad_secret_rejected env svc req :
  req_secret_token req <> TELEGRAM_WEBHOOK_SECRET env \/
  truthy (TELEGRAM_WEBHOOK_SECRET env) = None ->
  run (POST env svc req) =
    (Returned (match truthy (TELEGRAM_WEBHOOK_SECRET env) with
               | Some _ => json_error "Unauthorized" 401
               | None => json_error "Webhook not configured" 500
               end), []) /\
  fst (run (POST env svc req)) <> Returned json_ok /\
  persisted (snd (run (POST env svc req))) = [].
Proof.
  intros H.
  assert (Hrun : run (POST env svc req) =
    (Returned (match truthy (TELEGRAM_WEBHOOK_SECRET env) with
               | Some _ => json_error "Unauthorized" 401
               | None => json_error "Webhook not configured" 500
               end), [])).
  { unfold run.
    destruct (truthy (TELEGRAM_WEBHOOK_SECRET env)) as [s|] eqn:Hs.
    - apply POST_unauthorized with (expectedSecret := s); [exact Hs|].
      destruct H as [H|H]; [|discriminate].
      apply truthy_Some in Hs as [Hs _]. congruence.
    - apply POST_misconfigured. exact Hs. }
  rewrite Hrun. split; [reflexivity|]. split; [|reflexivity].
  simpl. destruct (truthy (TELEGRAM_WEBHOOK_SECRET env)); discriminate.
Qed.

Lemma bad_secret_rejected_witness :
  run (POST Samples.env_ok Samples.services
         (Samples.request (Some "guess")
            (Some (Samples.telegram_message Samples.agent (Some 7%Z) (Some "Hi") None)))) =
    (Returned (json_error "Unauthorized" 401), []).
Proof.
  apply (bad_secret_rejected Samples.env_ok Samples.services
           (Samples.request (Some "guess")
              (Some (Samples.telegram_message Samples.agent (Some 7%Z) (Some "Hi") None)))).
  left. discriminate.
Defined.

(** ** Step 3: updates that are ignored *)

(** C4. An authenticated, parsed update with no message, or with a message
    that is not from the support group, or that has no thread id, or that a
    bot wrote, is answered with the acknowledgment, and the handler makes no
    call to any service: nothing is persisted and nothing else happens. *)
Theorem ignorable_update_acknowledged env svc req update :
  authenticated env req ->
  req_json req = Some update ->
  (update_message update = None \/
   exists message,
     update_message update = Some message /\
     (isFromSupportGroup svc message = false \/
      extractThreadId svc message = None \/
      exists from, message_from message = Some from /\ user_is_bot from = true)) ->
  run (POST env svc req) = (Returned json_ok, []) /\
  persisted (snd (run (POST env svc req))) = [].
Proof.
  intros Hauth Hjson Hcase.
  destruct (authenticated_inv _ _ Hauth) as (s & Hs & Hh).
  assert (Hrun : run (POST env svc req) = (Returned json_ok, [])).
  { handler_unfold. rewrite Hs, Hh, Hjson.
    rewrite bool_decide_eq_true_2 by reflexivity. simpl.
    destruct Hcase as [Hm | (message & Hm & Hcase)]; rewrite Hm; [reflexivity|].
    destruct (isFromSupportGroup svc message) eqn:Hg; [|reflexivity]. simpl.
    destruct (truthyZ (extractThreadId svc message)) as [t|] eqn:Ht; [|reflexivity].
    destruct Hcase as [Hcase | [Hcase | (from & Hf & Hb)]].
    - discriminate.
    - rewrite Hcase in Ht. discriminate.
    - rewrite Hf. simpl. rewrite Hb. reflexivity. }
  rewrite Hrun. split; reflexivity.
Qed.

Lemma ignorable_update_acknowledged_witness :
  run (POST Samples.env_ok Samples.services
         (Samples.request (Some "s3cret")
            (Some (Samples.telegram_message Samples.bot (Some 7%Z) (Some "Hi") None)))) =
    (Returned json_ok, []).
Proof.
  refine (proj1 (ignorable_update_acknowledged Samples.env_ok Samples.services
           (Samples.request (Some "s3cret")
              (Some (Samples.telegram_message Samples.bot (Some 7%Z) (Some "Hi") None)))
           {| update_id := 1;
              update_message :=
                Some (Samples.telegram_message Samples.bot (Some 7%Z) (Some "Hi") None) |}
           _ _ _)).
  - reflexivity.
  - reflexivity.
  - right. eexists. split; [reflexivity|].
    right. right. exists Samples.bot. split; reflexivity.
Defined.

(** ** Step 4: no conversation for the thread *)

(** C5. An authenticated update that passes the filters and whose thread id
    resolves to no conversation: nothing is persisted; the only calls are the
    lookup and, when the bot is configured, one warning post to the same
    topic; the answer is the acknowledgment, whatever the warning post does
    (the outcome of [sendMessageToTopic] is arbitrary here). *)
Theorem unknown_thread_acknowledged env svc req update message threadId from :
  authenticated env req ->
  req_json req = Some update ->
  update_message update = Some message ->
  isFromSupportGroup svc message = true ->
  truthyZ (extractThreadId svc message) = Some threadId ->
  message_from message = Some from ->
  user_is_bot from = false ->
  getConversationByThreadId svc threadId = Returned None ->
  fst (run (POST env svc req)) = Returned json_ok /\
  snd (run (POST env svc req)) =
    CGetConversationByThreadId threadId ::
    (if isConfigured svc then [CSendMessageToTopic threadId warning_html "System"] else []) /\
  persisted (snd (run (POST env svc req))) = [] /\
  length (warnings (snd (run (POST env svc req)))) <= 1.
Proof.
  intros Hauth Hjson Hm Hg Ht Hf Hb Hconv.
  destruct (authenticated_inv _ _ Hauth) as (s & Hs & Hh).
  assert (Hrun : run (POST env svc req) =
    (Returned json_ok,
     CGetConversationByThreadId threadId ::
     (if isConfigured svc then [CSendMessageToTopic threadId warning_html "System"] else []))).
  { past_filters Hs Hh Hjson Hm Hg Ht Hf Hb. rewrite Hconv.
    destruct (isConfigured svc); [|reflexivity].
    destruct (sendMessageToTopic svc threadId warning_html "System") as [[]|]; reflexivity. }
  rewrite Hrun. simpl. split; [reflexivity|]. split; [reflexivity|].
  destruct (isConfigured svc); simpl; split; (reflexivity || lia).
Qed.

Lemma unknown_thread_acknowledged_witness :
  fst (run (POST Samples.env_ok Samples.services
         (Samples.request (Some "s3cret")
            (Some (Samples.telegram_message Samples.agent (Some 9%Z) (Some "Hi") None))))) =
    Returned json_ok.
Proof.
  refine (proj1 (unknown_thread_acknowledged Samples.env_ok Samples.services
           (Samples.request (Some "s3cret")
              (Some (Samples.telegram_message Samples.agent (Some 9%Z) (Some "Hi") None)))
           {| update_id := 1;
              update_message :=
                Some (Samples.telegram_message Samples.agent (Some 9%Z) (Some "Hi") None) |}
           (Samples.telegram_message Samples.agent (Some 9%Z) (Some "Hi") None)
           9%Z Samples.agent _ _ _ _ _ _ _ _)); reflexivity.
Defined.

(** ** Steps 5 to 8: content and image *)

Lemma persisted_app tr1 tr2 : persisted (tr1 ++ tr2) = persisted tr1 ++ persisted tr2.
Proof. unfold persisted. apply omap_app. Qed.

(** The helper never throws; its calls start with the metadata request for
    the file id it was given, and none of them persists a message. *)
Lemma downloadAndUploadTelegramPhoto_returns svc fileId botToken tr :
  exists url calls,
    downloadAndUploadTelegramPhoto svc fileId botToken tr =
      (Returned url, tr ++ CGetFile botToken fileId :: calls) /\
    persisted calls = [].
Proof.
  handler_unfold.
  destruct (fetchGetFile svc botToken fileId) as [fileData|];
    [|exists None, []; split; reflexivity].
  destruct (gf_ok fileData); simpl; [|exists None, []; split; reflexivity].
  destruct (gf_result fileData) as [result|]; simpl;
    [|exists None, []; split; reflexivity].
  destruct (truthy (file_path result)) as [filePath|];
    [|exists None, []; split; reflexivity].
  destruct (fetchDownload svc botToken filePath) as [d|]; simpl;
    [|exists None, [CDownloadFile botToken filePath];
      rewrite <- app_assoc; split; reflexivity].
  destruct (dl_ok d); simpl;
    [|exists None, [CDownloadFile botToken filePath];
      rewrite <- app_assoc; split; reflexivity].
  destruct (dl_arrayBuffer d) as [fileBlob|];
    [|exists None, [CDownloadFile botToken filePath];
      rewrite <- app_assoc; split; reflexivity].
  set (filename := photo_filename _ _ _).
  set (contentType := default _ _).
  destruct (storageUpload svc filename fileBlob contentType) as [[|path]|].
  - exists None, [CDownloadFile botToken filePath; CUpload filename contentType].
    rewrite <- !app_assoc. split; reflexivity.
  - exists (Some (getPublicUrl svc path)),
      [CDownloadFile botToken filePath; CUpload filename contentType].
    rewrite <- !app_assoc. split; reflexivity.
  - exists None, [CDownloadFile botToken filePath; CUpload filename contentType].
    rewrite <- !app_assoc. split; reflexivity.
Qed.

(** A failure of the metadata request, of the download or of the upload
    makes the helper return [null]. *)
Lemma downloadAndUploadTelegramPhoto_fails svc fileId botToken tr :
  image_pipeline_fails svc botToken fileId ->
  fst (downloadAndUploadTelegramPhoto svc fileId botToken tr) = Returned None.
Proof.
  intros Hfail. handler_unfold.
  destruct Hfail as
    [ Hgf
    | fileData Hgf Hok
    | fileData Hgf Hres
    | fileData result Hgf Hres Hpath
    | fileData result filePath Hgf Hres Hpath Hdl
    | fileData result filePath d Hgf Hres Hpath Hdl Hd
    | fileData result filePath d fileBlob Hgf Hres Hpath Hdl Hbuf Hup ];
    rewrite Hgf.
  - reflexivity.
  - rewrite Hok. reflexivity.
  - destruct (gf_ok fileData); simpl; [rewrite Hres|]; reflexivity.
  - destruct (gf_ok fileData); simpl; [rewrite Hres; simpl; rewrite Hpath|]; reflexivity.
  - destruct (gf_ok fileData); simpl; [|reflexivity].
    rewrite Hres. simpl. rewrite Hpath, Hdl. reflexivity.
  - destruct (gf_ok fileData); simpl; [|reflexivity].
    rewrite Hres. simpl. rewrite Hpath, Hdl. simpl.
    destruct Hd as [Hd|Hd].
    + rewrite Hd. reflexivity.
    + destruct (dl_ok d); simpl; [rewrite Hd|]; reflexivity.
  - destruct (gf_ok fileData); simpl; [|reflexivity].
    rewrite Hres. simpl. rewrite Hpath, Hdl. simpl.
    destruct (dl_ok d); simpl; [|reflexivity].
    rewrite Hbuf. simpl in Hup.
    destruct Hup as [Hup|Hup]; rewrite Hup; reflexivity.
Qed.

(** C10. An authenticated update from the support group, in a thread with a
    conversation, that carries a photo and neither text nor caption, when no
    bot token is configured: the image is not fetched, the empty-content
    check answers the acknowledgment, and nothing is persisted; the lookup
    of the conversation is the only call. *)
Theorem photo_only_without_token_dropped
  env svc req update message threadId from conversation p ps :
  authenticated env req ->
  req_json req = Some update ->
  update_message update = Some message ->
  isFromSupportGroup svc message = true ->
  truthyZ (extractThreadId svc message) = Some threadId ->
  message_from message = Some from ->
  user_is_bot from = false ->
  getConversationByThreadId svc threadId = Returned (Some conversation) ->
  message_content message = None ->
  message_photo message = Some (p :: ps) ->
  truthy (TELEGRAM_BOT_TOKEN env) = None ->
  run (POST env svc req) = (Returned json_ok, [CGetConversationByThreadId threadId]) /\
  persisted (snd (run (POST env svc req))) = [].
Proof.
  intros Hauth Hjson Hm Hg Ht Hf Hb Hconv Hcontent Hphoto Htoken.
  destruct (authenticated_inv _ _ Hauth) as (s & Hs & Hh).
  assert (Hrun : run (POST env svc req) =
                 (Returned json_ok, [CGetConversationByThreadId threadId])).
  { past_filters Hs Hh Hjson Hm Hg Ht Hf Hb.
    rewrite Hconv, Hcontent, Hphoto, Htoken. reflexivity. }
  rewrite Hrun. split; reflexivity.
Qed.

Lemma photo_only_without_token_dropped_witness :
  run (POST Samples.env_without_bot_token Samples.services
         (Samples.request (Some "s3cret")
            (Some (Samples.telegram_message Samples.agent (Some 7%Z) None
                     (Some Samples.photos))))) =
    (Returned json_ok, [CGetConversationByThreadId 7%Z]).
Proof.
  refine (proj1 (photo_only_without_token_dropped
           Samples.env_without_bot_token Samples.services
           (Samples.request (Some "s3cret")
              (Some (Samples.telegram_message Samples.agent (Some 7%Z) None
                       (Some Samples.photos))))
           {| update_id := 1;
              update_message :=
                Some (Samples.telegram_message Samples.agent (Some 7%Z) None
                        (Some Samples.photos)) |}
           (Samples.telegram_message Samples.agent (Some 7%Z) None (Some Samples.photos))
           7%Z Samples.agent Samples.conversation_a
           {| file_id := "small" |} [{| file_id := "medium" |}; {| file_id := "large" |}]
           _ _ _ _ _ _ _ _ _ _ _)); reflexivity.
Defined.

(** C8. An authenticated update that passes the filters, in a thread with a
    conversation, carrying a text (or caption) and a photo. The file id
    handed to the image helper is that of the last element of the photo
    array. When the image pipeline fails (metadata, download or upload), the
    helper returns [null] and does not throw, and the handler still calls
    [createMessage] exactly once, with the text as content and no image
    URL, and answers the acknowledgment. *)
Theorem image_failure_keeps_message
  env svc req update message threadId from conversation text p ps botToken :
  authenticated env req ->
  req_json req = Some update ->
  update_message update = Some message ->
  isFromSupportGroup svc message = true ->
  truthyZ (extractThreadId svc message) = Some threadId ->
  message_from message = Some from ->
  user_is_bot from = false ->
  getConversationByThreadId svc threadId = Returned (Some conversation) ->
  message_content message = Some text ->
  message_photo message = Some (p :: ps) ->
  truthy (TELEGRAM_BOT_TOKEN env) = Some botToken ->
  let fileId := file_id (List.last (p :: ps) p) in
  image_pipeline_fails svc botToken fileId ->
  (forall tr, fst (downloadAndUploadTelegramPhoto svc fileId botToken tr) = Returned None) /\
  fst (run (POST env svc req)) = Returned json_ok /\
  (exists calls,
     snd (run (POST env svc req)) =
       CGetConversationByThreadId threadId :: CGetFile botToken fileId :: calls) /\
  persisted (snd (run (POST env svc req))) =
    [{| cm_conversation_id := conv_id conversation;
        cm_sender_type := SenderSupport;
        cm_sender_name := user_first_name from;
        cm_sender_telegram_id := user_id from;
        cm_content := Some text;
        cm_image_url := None |}].
Proof.
  intros Hauth Hjson Hm Hg Ht Hf Hb Hconv Hcontent Hphoto Htoken fileId Hfail.
  destruct (authenticated_inv _ _ Hauth) as (s & Hs & Hh).
  split.
  { intros tr. apply downloadAndUploadTelegramPhoto_fails. exact Hfail. }
  pose proof (downloadAndUploadTelegramPhoto_fails svc fileId botToken
                [CGetConversationByThreadId threadId] Hfail) as Hnone.
  destruct (downloadAndUploadTelegramPhoto_returns svc fileId botToken
              [CGetConversationByThreadId threadId]) as (url & calls & Hdl & Hcalls).
  rewrite Hdl in Hnone. simpl in Hnone. injection Hnone as ->.
  set (input := {| cm_conversation_id := conv_id conversation;
                   cm_sender_type := SenderSupport;
                   cm_sender_name := user_first_name from;
                   cm_sender_telegram_id := user_id from;
                   cm_content := Some text;
                   cm_image_url := None |}).
  assert (Hrun : exists r rest,
    run (POST env svc req) =
      (Returned r,
       CGetConversationByThreadId threadId :: CGetFile botToken fileId ::
         calls ++ CCreateMessage input :: rest) /\
    r = json_ok /\ persisted rest = []).
  { unfold run, POST, try_catch at 1, bind, ret, throw, call, await, field.
    rewrite Hs, Hh, Hjson, Hm, Hg, Ht, Hf.
    rewrite bool_decide_eq_true_2 by reflexivity.
    simpl. rewrite Hb, Hconv, Hcontent, Hphoto, Htoken.
    change (file_id match ps with [] => p | _ :: _ => List.last ps p end) with fileId.
    rewrite app_nil_l, Hdl. simpl.
    fold input.
    destruct (createMessage svc input) as [supportMessage|].
    - exists json_ok,
        [CSetMessageTelegramId (msg_id supportMessage) (message_id message)].
      destruct (setMessageTelegramId svc (msg_id supportMessage) (message_id message))
        as [[]|]; rewrite <- app_assoc; (split; [reflexivity | split; reflexivity]).
    - exists json_ok, []. split; [reflexivity | split; reflexivity]. }
  destruct Hrun as (r & rest & Hrun & -> & Hrest).
  rewrite Hrun. simpl. split; [reflexivity|]. split; [eauto|].
  rewrite persisted_app. simpl. rewrite Hcalls, Hrest. reflexivity.
Qed.

Lemma image_failure_keeps_message_witness :
  persisted (snd (run (POST Samples.env_ok Samples.services
     (Samples.request (Some "s3cret")
        (Some (Samples.telegram_message Samples.agent (Some 7%Z) (Some "Hi")
                 (Some Samples.photos))))))) =
    [{| cm_conversation_id := "conv-a"; cm_sender_type := SenderSupport;
        cm_sender_name := "Dana"; cm_sender_telegram_id := 42;
        cm_content := Some "Hi"; cm_image_url := None |}].
Proof.
  refine (proj2 (proj2 (proj2 (image_failure_keeps_message
           Samples.env_ok Samples.services
           (Samples.request (Some "s3cret")
              (Some (Samples.telegram_message Samples.agent (Some 7%Z) (Some "Hi")
                       (Some Samples.photos))))
           {| update_id := 1;
              update_message :=
                Some (Samples.telegram_message Samples.agent (Some 7%Z) (Some "Hi")
                        (Some Samples.photos)) |}
           (Samples.telegram_message Samples.agent (Some 7%Z) (Some "Hi")
              (Some Samples.photos))
           7%Z Samples.agent Samples.conversation_a "Hi"
           {| file_id := "small" |} [{| file_id := "medium" |}; {| file_id := "large" |}]
           "123:abc" _ _ _ _ _ _ _ _ _ _ _ _)))); try reflexivity.
  apply metadata_throws. reflexivity.
Defined.

End WebhookProperties.

(** * Properties of the synchronization store *)

Section StoreProperties.

Import Store.

(** ** The realtime handler *)

Lemma onInsert_present conversationId newMessage w :
  Exists (fun m => msg_id m = msg_id newMessage) (messages (store w)) ->
  onInsert conversationId newMessage w = w.
Proof.
  intros H. unfold onInsert.
  rewrite bool_decide_eq_true_2 by exact H. reflexivity.
Qed.

(** When the id is new, the placeholders are dropped and the message is
    appended at the tail. *)
Lemma onInsert_fresh_messages conversationId newMessage w :
  ~ Exists (fun m => msg_id m = msg_id newMessage) (messages (store w)) ->
  messages (store (onInsert conversationId newMessage w)) =
    filter (fun m => is_temp (msg_id m) = false) (messages (store w)) ++ [newMessage].
Proof.
  intros H. unfold onInsert.
  rewrite bool_decide_eq_false_2 by exact H. simpl.
  destruct (bool_decide (msg_sender_type newMessage = SenderSupport) &&
            negb (isOpen (store w))); reflexivity.
Qed.

Lemma onInsert_then_present conversationId newMessage w :
  Exists (fun m => msg_id m = msg_id newMessage)
         (messages (store (onInsert conversationId newMessage w))).
Proof.
  destruct (decide (Exists (fun m => msg_id m = msg_id newMessage) (messages (store w))))
    as [H|H].
  - rewrite onInsert_present by exact H. exact H.
  - rewrite onInsert_fresh_messages by exact H.
    apply Exists_app. right. constructor. reflexivity.
Qed.

(** Delivering an event a second time changes nothing, whatever the state. *)
Lemma onInsert_twice conversationId newMessage w :
  onInsert conversationId newMessage (onInsert conversationId newMessage w) =
  onInsert conversationId newMessage w.
Proof. apply onInsert_present, onInsert_then_present. Qed.

(** C2. An insert event for a message whose id is already in the list
    leaves the whole world as it is: the message list, the unread counter
    and the device cache. A second delivery of the same event is therefore
    a no-op, in every state. *)
Theorem realtime_insert_idempotent conversationId newMessage w :
  (Exists (fun m => msg_id m = msg_id newMessage) (messages (store w)) ->
   onInsert conversationId newMessage w = w) /\
  onInsert conversationId newMessage (onInsert conversationId newMessage w) =
  onInsert conversationId newMessage w.
Proof.
  split.
  - apply onInsert_present.
  - apply onInsert_twice.
Qed.

Lemma realtime_insert_idempotent_witness :
  onInsert "conv-a" (Samples.stored_message "m-1" (Some "Hello"))
    (Samples.world_with [Samples.stored_message "m-1" (Some "Hello")]) =
  Samples.world_with [Samples.stored_message "m-1" (Some "Hello")].
Proof.
  apply (proj1 (realtime_insert_idempotent "conv-a"
                  (Samples.stored_message "m-1" (Some "Hello"))
                  (Samples.world_with [Samples.stored_message "m-1" (Some "Hello")]))).
  constructor. reflexivity.
Defined.

(** ** Optimistic send and its realtime confirmation *)

Lemma is_temp_make_tempId now random : is_temp (make_tempId now random) = true.
Proof. reflexivity. Qed.

Lemma filter_not_tempId_nontemp tempId (l : list SupportMessage) :
  is_temp tempId = true ->
  Forall (fun m => is_temp (msg_id m) = false) l ->
  filter (fun m => msg_id m <> tempId) l = l.
Proof.
  intros Htemp Hall. induction Hall as [|m l Hm _ IH]; [reflexivity|].
  rewrite filter_cons. destruct (decide (msg_id m <> tempId)) as [_|Heq].
  - rewrite IH. reflexivity.
  - exfalso. apply Heq. intros E. rewrite E, Htemp in Hm. discriminate.
Qed.

Lemma filter_nontemp_not_tempId tempId (l : list SupportMessage) :
  is_temp tempId = true ->
  filter (fun m => is_temp (msg_id m) = false) (filter (fun m => msg_id m <> tempId) l) =
  filter (fun m => is_temp (msg_id m) = false) l.
Proof.
  intros Htemp. induction l as [|m l IH]; [reflexivity|].
  rewrite (filter_cons (fun m => msg_id m <> tempId)).
  destruct (decide (msg_id m <> tempId)) as [Hne|Heq].
  - rewrite !filter_cons, IH. reflexivity.
  - rewrite filter_cons, IH.
    destruct (decide (is_temp (msg_id m) = false)) as [Hm|_]; [|reflexivity].
    exfalso. apply Heq. intros E. rewrite E, Htemp in Hm. discriminate.
Qed.

Lemma filter_nontemp_Forall (l : list SupportMessage) :
  Forall (fun m => is_temp (msg_id m) = false)
         (filter (fun m => is_temp (msg_id m) = false) l).
Proof.
  apply Forall_forall. intros m Hm. apply list_elem_of_filter in Hm. tauto.
Qed.

Lemma Exists_filter_inv {A} (P Q : A -> Prop) `{!forall x, Decision (Q x)} (l : list A) :
  Exists P (filter Q l) -> Exists P l.
Proof.
  rewrite !Exists_exists. intros (x & Hx & HP).
  apply list_elem_of_filter in Hx. exists x. tauto.
Qed.

Lemma count_content_app text l1 l2 :
  count_content text (l1 ++ l2) = count_content text l1 + count_content text l2.
Proof. unfold count_content. rewrite filter_app, length_app. reflexivity. Qed.

Lemma count_content_filter_zero text (Q : SupportMessage -> Prop)
  `{!forall x, Decision (Q x)} l :
  count_content text l = 0 -> count_content text (filter Q l) = 0.
Proof.
  unfold count_content. induction l as [|m l IH]; [reflexivity|].
  rewrite (filter_cons (fun m => msg_content m = Some text)).
  destruct (decide (msg_content m = Some text)) as [Hm|Hm]; [discriminate|].
  intros Hl. rewrite (filter_cons Q). destruct (decide (Q m)); [|auto].
  rewrite (filter_cons (fun m => msg_content m = Some text)).
  destruct (decide (msg_content m = Some text)); [contradiction | auto].
Qed.

(** A later step of the send leaves the channels alone and either leaves
    the message list or removes the placeholder from it. *)
Lemma lifecycle_step tempId a w :
  send_lifecycle tempId a ->
  channels (step a w) = channels w /\
  (messages (store (step a w)) = messages (store w) \/
   messages (store (step a w)) =
     filter (fun m => msg_id m <> tempId) (messages (store w))).
Proof.
  intros [|message|]; simpl.
  - split; [reflexivity | left; reflexivity].
  - split; [reflexivity | right; reflexivity].
  - unfold timer_fires. destruct (take_timer tempId (timers w)).
    + split; [reflexivity | right; reflexivity].
    + split; [reflexivity | left; reflexivity].
Qed.

Lemma lifecycle_run tempId (P : list SupportMessage -> Prop) acts :
  (forall l, P l -> P (filter (fun m => msg_id m <> tempId) l)) ->
  Forall (send_lifecycle tempId) acts ->
  forall w,
    P (messages (store w)) ->
    P (messages (store (run_actions acts w))) /\
    channels (run_actions acts w) = channels w.
Proof.
  intros Hclosed Hacts. induction Hacts as [|a acts Ha _ IH]; intros w HP.
  - split; [exact HP | reflexivity].
  - destruct (lifecycle_step tempId a w Ha) as [Hch Hmsgs].
    assert (HP' : P (messages (store (step a w)))).
    { destruct Hmsgs as [-> | ->]; auto. }
    destruct (IH (step a w) HP') as [HPfinal Hchfinal].
    simpl. split; [exact HPfinal | congruence].
Qed.

Lemma run_actions_app acts1 acts2 w :
  run_actions (acts1 ++ acts2) w = run_actions acts2 (run_actions acts1 w).
Proof. unfold run_actions. apply fold_left_app. Qed.

(** C1. A visitor with a current conversation sends a text that no message
    in the list shows yet. At once the list shows it exactly once, as the
    placeholder at the tail. When the insert event of the persisted message
    (same text, a server id that is new and outside the placeholder
    namespace) arrives on an open channel, before or after the response of
    the send and before or after its cleanup timer, the list is from then
    on the confirmed messages it had, followed by the authoritative message:
    all placeholders are gone and the text shows exactly once. *)
Theorem optimistic_send_shows_once
  w conversation anonymousId text imageUrl now random created_at real ch c pre post :
  currentConversation (store w) = Some conversation ->
  truthy (support_anonymous_id (localStorage w)) = Some anonymousId ->
  text <> "" ->
  count_content text (messages (store w)) = 0 ->
  List.find (fun c => bool_decide (ch_id c = ch)) (channels w) = Some c ->
  msg_content real = Some text ->
  is_temp (msg_id real) = false ->
  ~ Exists (fun m => msg_id m = msg_id real) (messages (store w)) ->
  let tempId := make_tempId now random in
  Forall (send_lifecycle tempId) pre ->
  Forall (send_lifecycle tempId) post ->
  let w1 := sendMessage text imageUrl now random created_at w in
  let w2 := run_actions (pre ++ [ARealtimeInsert ch real] ++ post) w1 in
  messages (store w1) =
    messages (store w) ++ [tempMessage tempId (conv_id conversation) text imageUrl created_at] /\
  count_content text (messages (store w1)) = 1 /\
  messages (store w2) =
    filter (fun m => is_temp (msg_id m) = false) (messages (store w)) ++ [real] /\
  count_content text (messages (store w2)) = 1.
Proof.
  intros Hconv Hanon Htext Hcount Hch Hcontent Hreal Hfresh tempId Hpre Hpost w1 w2.
  set (tm := tempMessage tempId (conv_id conversation) text imageUrl created_at).
  set (confirmed := filter (fun m => is_temp (msg_id m) = false) (messages (store w))).
  assert (Htemp : is_temp tempId = true) by apply is_temp_make_tempId.
  assert (Hw1 : messages (store w1) = messages (store w) ++ [tm]).
  { subst w1. unfold sendMessage. rewrite Hconv, Hanon. reflexivity. }
  assert (Hch1 : channels w1 = channels w).
  { subst w1. unfold sendMessage. rewrite Hconv, Hanon. reflexivity. }
  assert (Htm : msg_content tm = Some text).
  { simpl. apply truthy_of_nonempty. exact Htext. }
  split; [exact Hw1|]. split.
  { rewrite Hw1, count_content_app, Hcount. unfold count_content.
    rewrite filter_cons. destruct (decide (msg_content tm = Some text)); [reflexivity|].
    contradiction. }
  (* before the event: the confirmed messages are those of [w], and the id
     of the event is still new *)
  pose (P1 := fun l : list SupportMessage =>
          filter (fun m => is_temp (msg_id m) = false) l = confirmed /\
          ~ Exists (fun m => msg_id m = msg_id real) l).
  assert (HP1closed : forall l, P1 l -> P1 (filter (fun m => msg_id m <> tempId) l)).
  { intros l [Hl Hnew]. split.
    - rewrite filter_nontemp_not_tempId by exact Htemp. exact Hl.
    - intros E. apply Hnew. eapply Exists_filter_inv. exact E. }
  assert (HP1w1 : P1 (messages (store w1))).
  { rewrite Hw1. split.
    - rewrite filter_app. unfold confirmed.
      rewrite (filter_cons _ tm).
      destruct (decide (is_temp (msg_id tm) = false)) as [E|_].
      + simpl in E. rewrite Htemp in E. discriminate.
      + simpl. apply app_nil_r.
    - intros E. apply Exists_app in E as [E|E]; [contradiction|].
      apply Exists_cons in E as [E|E]; [|inversion E].
      simpl in E. rewrite <- E, Htemp in Hreal. discriminate. }
  destruct (lifecycle_run tempId P1 pre HP1closed Hpre w1 HP1w1) as [[Hconf Hnew] Hchpre].
  (* the event *)
  set (wpre := run_actions pre w1) in *.
  assert (Hev : messages (store (step (ARealtimeInsert ch real) wpre)) = confirmed ++ [real]).
  { simpl. rewrite Hchpre, Hch1, Hch.
    rewrite onInsert_fresh_messages by exact Hnew. rewrite Hconf. reflexivity. }
  (* after the event *)
  pose (P2 := fun l : list SupportMessage => l = confirmed ++ [real]).
  assert (HP2closed : forall l, P2 l -> P2 (filter (fun m => msg_id m <> tempId) l)).
  { intros l ->. unfold P2. apply filter_not_tempId_nontemp; [exact Htemp|].
    apply Forall_app. split; [apply filter_nontemp_Forall|].
    constructor; [exact Hreal | constructor]. }
  destruct (lifecycle_run tempId P2 post HP2closed Hpost _ Hev) as [Hfinal _].
  assert (Hw2 : messages (store w2) = confirmed ++ [real]).
  { subst w2. rewrite !run_actions_app. exact Hfinal. }
  split; [exact Hw2|].
  rewrite Hw2, count_content_app. unfold confirmed.
  rewrite count_content_filter_zero by exact Hcount.
  unfold count_content. rewrite filter_cons.
  destruct (decide (msg_content real = Some text)); [reflexivity | contradiction].
Qed.

(** ** Loading the messages of a conversation *)

(** C6. When the server returns a non-empty list for conversation C, the
    in-memory list and the cache entry of C are that list, in that order.
    When it returns no message (an empty or absent [messages] field), the
    in-memory list becomes empty and the device storage is not written. *)
Theorem load_messages_cache_coherence conversationId data_messages w :
  let msgs := default [] data_messages in
  let w' := loadConversationMessages_done conversationId (LoadOk data_messages) w in
  messages (store w') = msgs /\
  (0 < length msgs ->
   support_messages (localStorage w') !! cacheKey conversationId = Some msgs) /\
  (length msgs = 0 -> localStorage w' = localStorage w).
Proof.
  intros msgs w'. subst w'. unfold loadConversationMessages_done. fold msgs.
  destruct (decide (0 < length msgs)) as [Hpos|Hzero].
  - split; [reflexivity|]. split.
    + intros _. simpl. apply lookup_insert_eq.
    + intros Hlen. lia.
  - split; [reflexivity|]. split.
    + intros Hpos. contradiction.
    + intros _. reflexivity.
Qed.

Lemma optimistic_send_shows_once_witness :
  count_content "Hello"
    (messages (store
       (run_actions
          ([ASendMessageResolved (make_tempId "1700000000000" "0.42")] ++
           [ARealtimeInsert 0 (Samples.stored_message "m-9" (Some "Hello"))] ++
           [ATimerFires (make_tempId "1700000000000" "0.42")])
          (sendMessage "Hello" None "1700000000000" "0.42" "2024-01-01T00:00:03.000Z"
             (Samples.world_with []))))) = 1.
Proof.
  refine (proj2 (proj2 (proj2 (optimistic_send_shows_once
    (Samples.world_with []) Samples.conversation_a "visitor-1" "Hello" None
    "1700000000000" "0.42" "2024-01-01T00:00:03.000Z"
    (Samples.stored_message "m-9" (Some "Hello")) 0
    {| ch_id := 0; ch_conversationId := "conv-a" |}
    [ASendMessageResolved (make_tempId "1700000000000" "0.42")]
    [ATimerFires (make_tempId "1700000000000" "0.42")]
    _ _ _ _ _ _ _ _ _ _)))).
  - reflexivity.
  - reflexivity.
  - discriminate.
  - reflexivity.
  - reflexivity.
  - reflexivity.
  - reflexivity.
  - intros E. inversion E.
  - repeat constructor.
  - repeat constructor.
Defined.

Lemma load_messages_cache_coherence_witness :
  support_messages
    (localStorage
       (loadConversationMessages_done "conv-a"
          (LoadOk (Some [Samples.stored_message "m-1" (Some "Hello")]))
          (Samples.world_with []))) !! cacheKey "conv-a" =
    Some [Samples.stored_message "m-1" (Some "Hello")] /\
  localStorage
    (loadConversationMessages_done "conv-a" (LoadOk (Some []))
       (Samples.world_with [Samples.stored_message "m-1" (Some "Hello")])) =
  localStorage (Samples.world_with [Samples.stored_message "m-1" (Some "Hello")]).
Proof.
  split.
  - apply (proj1 (proj2 (load_messages_cache_coherence "conv-a"
             (Some [Samples.stored_message "m-1" (Some "Hello")])
             (Samples.world_with [])))).
    simpl. lia.
  - apply (proj2 (proj2 (load_messages_cache_coherence "conv-a" (Some [])
             (Samples.world_with [Samples.stored_message "m-1" (Some "Hello")])))).
    reflexivity.
Defined.

(** ** The realtime subscription slot *)

Lemma with_store_subscription f w :
  channels (with_store f w) = channels w /\
  activeSubscription (with_store f w) = activeSubscription w.
Proof. split; reflexivity. Qed.

Lemma setItem_messages_subscription key l w :
  channels (setItem_messages key l w) = channels w /\
  activeSubscription (setItem_messages key l w) = activeSubscription w.
Proof. split; reflexivity. Qed.

Lemma slot_tracks_channels_same w w' :
  channels w' = channels w ->
  activeSubscription w' = activeSubscription w ->
  slot_tracks_channels w -> slot_tracks_channels w'.
Proof. unfold slot_tracks_channels. intros -> ->. auto. Qed.

Lemma onInsert_subscription conversationId newMessage w :
  channels (onInsert conversationId newMessage w) = channels w /\
  activeSubscription (onInsert conversationId newMessage w) = activeSubscription w.
Proof.
  unfold onInsert.
  destruct (negb _); [|split; reflexivity].
  destruct (_ && _); split; reflexivity.
Qed.

(** Calling the [unsubscribe] closure of the subscription in the slot
    closes its channel and empties the slot. *)
Lemma unsubscribe_active w active :
  slot_tracks_channels w ->
  activeSubscription w = Some active ->
  channels (unsubscribe (sub_unsubscribe active) w) = [] /\
  activeSubscription (unsubscribe (sub_unsubscribe active) w) = None.
Proof.
  unfold slot_tracks_channels. intros Hinv Hact. rewrite Hact in Hinv.
  split; [|reflexivity]. simpl. rewrite Hinv.
  rewrite filter_cons. simpl.
  destruct (decide (sub_unsubscribe active <> sub_unsubscribe active)); [congruence|].
  reflexivity.
Qed.

Lemma unsubscribe_not_stale ch w :
  slot_tracks_channels w -> ~ stale ch w ->
  channels (unsubscribe ch w) = [] /\ activeSubscription (unsubscribe ch w) = None.
Proof.
  intros Hinv Hns. split; [|reflexivity].
  unfold stale in Hns. unfold slot_tracks_channels in Hinv. simpl.
  destruct (activeSubscription w) as [active|]; rewrite Hinv; [|reflexivity].
  rewrite filter_cons. simpl.
  destruct (decide (sub_unsubscribe active <> ch)); [contradiction | reflexivity].
Qed.

(** After [subscribeToMessages(id)] exactly one channel is open, for [id]. *)
Lemma subscribeToMessages_one conversationId w :
  slot_tracks_channels w ->
  slot_tracks_channels (fst (subscribeToMessages conversationId w)) /\
  active_subscriptions (fst (subscribeToMessages conversationId w)) = [conversationId].
Proof.
  intros Hinv. unfold subscribeToMessages, active_subscriptions.
  destruct (activeSubscription w) as [active|] eqn:Hact.
  - destruct (decide (sub_conversationId active = conversationId)) as [Heq|Hne].
    + split; [exact Hinv|]. simpl.
      unfold slot_tracks_channels in Hinv. rewrite Hact in Hinv. rewrite Hinv.
      simpl. rewrite Heq. reflexivity.
    + destruct (unsubscribe_active w active Hinv Hact) as [Hch _].
      unfold slot_tracks_channels. simpl in *. rewrite Hch. split; reflexivity.
  - unfold slot_tracks_channels in *. rewrite Hact in Hinv. simpl. rewrite Hinv.
    split; reflexivity.
Qed.

(** The first step of [setCurrentConversation]: no channel is left open. *)
Lemma setCurrentConversation_cleanup w :
  slot_tracks_channels w ->
  let w1 :=
    match activeSubscription w with
    | Some active => set_activeSubscription None (unsubscribe (sub_unsubscribe active) w)
    | None => w
    end in
  channels w1 = [] /\ activeSubscription w1 = None /\ localStorage w1 = localStorage w.
Proof.
  intros Hinv. destruct (activeSubscription w) as [active|] eqn:Hact; simpl.
  - destruct (unsubscribe_active w active Hinv Hact) as [Hch _].
    simpl in Hch. rewrite Hch. repeat split.
  - unfold slot_tracks_channels in Hinv. rewrite Hact in Hinv. repeat split; assumption.
Qed.

(** What [setCurrentConversation] leaves open: one channel for the selected
    conversation when the device holds a visitor id, none otherwise, and
    none when nothing is selected. *)
Lemma setCurrentConversation_subscriptions conversation w :
  slot_tracks_channels w ->
  slot_tracks_channels (setCurrentConversation conversation w) /\
  localStorage (setCurrentConversation conversation w) = localStorage w /\
  active_subscriptions (setCurrentConversation conversation w) =
    match conversation, truthy (support_anonymous_id (localStorage w)) with
    | Some c, Some _ => [conv_id c]
    | _, _ => []
    end.
Proof.
  intros Hinv. unfold setCurrentConversation.
  destruct (setCurrentConversation_cleanup w Hinv) as (Hch & Hact & Hls).
  set (w1 := match activeSubscription w with
             | Some active => set_activeSubscription None (unsubscribe (sub_unsubscribe active) w)
             | None => w
             end) in *.
  assert (Hinv1 : slot_tracks_channels w1).
  { unfold slot_tracks_channels. rewrite Hch, Hact. reflexivity. }
  destruct conversation as [c|].
  - set (w2 := with_store _ w1).
    assert (Hinv2 : slot_tracks_channels w2) by exact Hinv1.
    assert (Hls2 : localStorage w2 = localStorage w) by exact Hls.
    rewrite Hls2.
    destruct (truthy (support_anonymous_id (localStorage w))) as [anonymousId|].
    + destruct (subscribeToMessages_one (conv_id c) w2 Hinv2) as [Hinv3 Hone].
      split; [exact Hinv3|]. split; [|exact Hone].
      rewrite <- Hls2. unfold subscribeToMessages.
      destruct (activeSubscription w2) as [active|]; [|reflexivity].
      destruct (decide _); reflexivity.
    + split; [exact Hinv2|]. split; [exact Hls2|].
      unfold active_subscriptions. change (channels w2) with (channels w1).
      rewrite Hch. reflexivity.
  - split; [exact Hinv1|]. split; [exact Hls|].
    unfold active_subscriptions. simpl. rewrite Hch. reflexivity.
Qed.

Lemma step_slot_tracks_channels a w :
  slot_tracks_channels w -> permitted a w -> slot_tracks_channels (step a w).
Proof.
  intros Hinv Hperm.
  destruct a; simpl; try exact Hinv.
  - destruct response; exact Hinv.
  - destruct response as [message|conversation msgs]; [exact Hinv|].
    apply subscribeToMessages_one. exact Hinv.
  - apply setCurrentConversation_subscriptions. exact Hinv.
  - unfold loadConversationMessages_done. destruct response; [exact Hinv|].
    destruct (decide _); exact Hinv.
  - destruct response; exact Hinv.
  - unfold sendMessage. destruct (currentConversation (store w)); [|exact Hinv].
    destruct (truthy _); exact Hinv.
  - unfold timer_fires. destruct (take_timer tempId (timers w)); exact Hinv.
  - apply subscribeToMessages_one. exact Hinv.
  - destruct (unsubscribe_not_stale ch w Hinv Hperm) as [Hch Hact].
    unfold slot_tracks_channels. rewrite Hch, Hact. reflexivity.
  - destruct (List.find _ (channels w)) as [c|]; [|exact Hinv].
    destruct (onInsert_subscription (ch_conversationId c) newMessage w) as [Hch Hact].
    eapply slot_tracks_channels_same; eauto.
Qed.

Lemma reachable_slot_tracks_channels ls w :
  reachable ls w -> slot_tracks_channels w.
Proof.
  induction 1 as [|w a _ IH Hperm].
  - reflexivity.
  - apply step_slot_tracks_channels; assumption.
Qed.

(** C7, amended. In every world the store reaches while no stale
    [unsubscribe] closure is called, at most one realtime subscription is
    active. Selecting conversation A and then conversation B leaves exactly
    one active subscription, for B, when the device storage holds a visitor
    id, and none when it does not. Selecting "none" leaves no subscription. *)
Theorem subscription_exclusivity ls w :
  reachable ls w ->
  length (active_subscriptions w) <= 1 /\
  (forall a b,
     active_subscriptions
       (run_actions [ASetCurrentConversation (Some a); ASetCurrentConversation (Some b)] w) =
     match truthy (support_anonymous_id (localStorage w)) with
     | Some _ => [conv_id b]
     | None => []
     end) /\
  active_subscriptions (run_actions [ASetCurrentConversation None] w) = [].
Proof.
  intros Hreach.
  pose proof (reachable_slot_tracks_channels ls w Hreach) as Hinv.
  split; [|split].
  - unfold active_subscriptions. rewrite length_map.
    unfold slot_tracks_channels in Hinv. rewrite Hinv.
    destruct (activeSubscription w); simpl; lia.
  - intros a b.
    change (run_actions _ w)
      with (setCurrentConversation (Some b) (setCurrentConversation (Some a) w)).
    destruct (setCurrentConversation_subscriptions (Some a) w Hinv) as (Hinv1 & Hls1 & _).
    destruct (setCurrentConversation_subscriptions (Some b) _ Hinv1) as (_ & _ & Hsubs).
    rewrite Hsubs, Hls1. reflexivity.
  - change (run_actions _ w) with (setCurrentConversation None w).
    destruct (setCurrentConversation_subscriptions None w Hinv) as (_ & _ & Hsubs).
    exact Hsubs.
Qed.

Lemma subscription_exclusivity_witness :
  active_subscriptions
    (run_actions [ASetCurrentConversation (Some Samples.conversation_a);
                  ASetCurrentConversation (Some Samples.conversation_b)]
       (initial_world Samples.storage_with_visitor)) = ["conv-b"].
Proof.
  apply (proj1 (proj2 (subscription_exclusivity Samples.storage_with_visitor
                         (initial_world Samples.storage_with_visitor)
                         (reachable_initial Samples.storage_with_visitor)))
           Samples.conversation_a Samples.conversation_b).
Defined.

(** C7 as stated fails: on a device whose storage holds no visitor id,
    [setCurrentConversation] does not subscribe, so selecting A and then B
    leaves no active subscription instead of one for B. *)
Lemma select_without_visitor_id_no_subscription :
  active_subscriptions
    (run_actions [ASetCurrentConversation (Some Samples.conversation_a);
                  ASetCurrentConversation (Some Samples.conversation_b)]
       (initial_world Samples.storage_without_visitor)) <> ["conv-b"].
Proof. vm_compute. discriminate. Qed.

(** An [unsubscribe] closure of a replaced subscription, called late,
    empties the slot while the newer channel stays open; the next
    subscription then opens a second channel. *)
Example stale_unsubscribe_leaves_two_subscriptions :
  active_subscriptions
    (run_actions [ASubscribeToMessages "conv-a"; ASubscribeToMessages "conv-b";
                  AUnsubscribe 0; ASubscribeToMessages "conv-c"]
       (initial_world Samples.storage_with_visitor)) = ["conv-b"; "conv-c"].
Proof. reflexivity. Qed.

End StoreProperties.

(** * Properties of the chat input *)

Section ChatInputProperties.

Import Store ChatInput.

Lemma SupportChatInput_gated s st c :
  currentConversation s = Some c ->
  conv_status c = StatusResolved \/ conv_status c = StatusClosed ->
  exists notice, SupportChatInput s st = ClosedPanel notice.
Proof.
  intros Hc Hstatus. unfold SupportChatInput. rewrite Hc. simpl.
  destruct Hstatus as [-> | ->]; simpl; eauto.
Qed.

(** C9. When the current conversation is resolved or closed the component
    renders the notice with the "Start New Ticket" button and no form. No
    event of the visitor then sends a request: every event other than the
    click on that button leaves the page as it is, and the click clears the
    current conversation and the message list. *)
Theorem closed_conversation_offers_only_restart anonymousId ui c :
  currentConversation (store (world ui)) = Some c ->
  conv_status c = StatusResolved \/ conv_status c = StatusClosed ->
  (exists notice, SupportChatInput (store (world ui)) (local ui) = ClosedPanel notice) /\
  (forall e, requests (dispatch anonymousId e ui) = requests ui) /\
  (forall e, e <> ClickStartNewTicket -> dispatch anonymousId e ui = ui) /\
  currentConversation (store (world (dispatch anonymousId ClickStartNewTicket ui))) = None /\
  messages (store (world (dispatch anonymousId ClickStartNewTicket ui))) = [].
Proof.
  intros Hc Hstatus.
  destruct (SupportChatInput_gated _ (local ui) _ Hc Hstatus) as [notice Hview].
  split; [eauto|].
  unfold dispatch. rewrite Hview.
  split; [|split; [|split]].
  - intros []; reflexivity.
  - intros [] Hne; try reflexivity. contradiction.
  - reflexivity.
  - reflexivity.
Qed.

Lemma closed_conversation_offers_only_restart_witness :
  requests
    (dispatch "visitor-1"
       (SubmitForm {| upload_url := None; clock_now := "1700000000000";
                      clock_random := "0.42"; clock_iso := "2024-01-01T00:00:03.000Z" |})
       Samples.ui_resolved) = [].
Proof.
  apply (proj1 (proj2 (closed_conversation_offers_only_restart
                         "visitor-1" Samples.ui_resolved Samples.conversation_resolved
                         eq_refl (or_introl eq_refl)))).
Defined.

(** For comparison: on an open conversation the same submit sends the
    message. *)
Example open_conversation_submit_sends :
  requests
    (dispatch "visitor-1"
       (SubmitForm {| upload_url := None; clock_now := "1700000000000";
                      clock_random := "0.42"; clock_iso := "2024-01-01T00:00:03.000Z" |})
       {| world := Samples.world_with [];
          local := local Samples.ui_resolved;
          requests := [] |}) =
    [ReqSendMessage "conv-a" "one more thing" None].
Proof. reflexivity. Qed.

End ChatInputProperties.

(** * Further properties of the webhook handler *)

Section WebhookCoverage.

Import Webhook.

(** ** Malformed bodies and failing services *)

Lemma authenticated_check env req expectedSecret :
  truthy (TELEGRAM_WEBHOOK_SECRET env) = Some expectedSecret ->
  req_secret_token req = Some expectedSecret ->
  negb (bool_decide (req_secret_token req = Some expectedSecret)) = false.
Proof. intros _ ->. rewrite bool_decide_eq_true_2 by reflexivity. reflexivity. Qed.

(** An authenticated request whose body is not JSON is answered 400
    "Invalid JSON", and no service is called. *)
Theorem invalid_json_rejected env svc req :
  authenticated env req ->
  req_json req = None ->
  run (POST env svc req) = (Returned (json_error "Invalid JSON" 400), []).
Proof.
  intros Hauth Hjson.
  destruct (authenticated_inv _ _ Hauth) as (s & Hs & Hh).
  unfold run, POST, try_catch, ret.
  rewrite Hs, (authenticated_check _ _ _ Hs Hh), Hjson. reflexivity.
Qed.

Lemma invalid_json_rejected_witness :
  run (POST Samples.env_ok Samples.services
         {| req_secret_token := Some "s3cret"; req_json := None |}) =
    (Returned (json_error "Invalid JSON" 400), []).
Proof.
  apply (invalid_json_rejected Samples.env_ok Samples.services
           {| req_secret_token := Some "s3cret"; req_json := None |});
    reflexivity.
Defined.

Lemma acknowledges_ret : acknowledges (ret json_ok).
Proof. intros tr. left. reflexivity. Qed.

Lemma acknowledges_throw : acknowledges throw.
Proof. intros tr. right. reflexivity. Qed.

Lemma acknowledges_bind {A} (m : Handler A) (k : A -> Handler Response) :
  (forall a, acknowledges (k a)) -> acknowledges (bind m k).
Proof.
  intros Hk tr. unfold bind.
  destruct (m tr) as [[a|] tr']; [apply Hk | right; reflexivity].
Qed.

Lemma acknowledges_try_catch h tr :
  acknowledges h -> fst (try_catch h (ret json_ok) tr) = Returned json_ok.
Proof.
  intros Hh. unfold try_catch. specialize (Hh tr).
  destruct (h tr) as [[resp|] tr']; simpl in *.
  - destruct Hh as [Hh|Hh]; [exact Hh | discriminate].
  - reflexivity.
Qed.

(** The body of [POST] from step 3 on acknowledges or throws: each of its
    exits is [{ ok: true }]. *)
Ltac acknowledge_update svc update :=
  apply acknowledges_try_catch;
  destruct (update_message update) as [message|]; [|apply acknowledges_ret];
  destruct (isFromSupportGroup svc message); simpl; [|apply acknowledges_ret];
  destruct (truthyZ (extractThreadId svc message)) as [threadId|];
    [|apply acknowledges_ret];
  apply acknowledges_bind; intros from;
  destruct (user_is_bot from); [apply acknowledges_ret|];
  apply acknowledges_bind; intros [conversation|];
  [ apply acknowledges_bind; intros imageUrl;
    destruct (_ && _); [apply acknowledges_ret|];
    apply acknowledges_bind; intros supportMessage;
    apply acknowledges_bind; intros _; apply acknowledges_ret
  | apply acknowledges_bind; intros _; apply acknowledges_ret ].

(** Once the secret has been accepted and the body parsed, the answer is the
    acknowledgment whatever the update holds and whatever the services do:
    every exception after that point is swallowed. *)
Theorem authenticated_update_acknowledged env svc req update tr :
  authenticated env req ->
  req_json req = Some update ->
  fst (POST env svc req tr) = Returned json_ok.
Proof.
  intros Hauth Hjson.
  destruct (authenticated_inv _ _ Hauth) as (s & Hs & Hh).
  unfold POST.
  rewrite Hs, (authenticated_check _ _ _ Hs Hh), Hjson.
  acknowledge_update svc update.
Qed.

Lemma authenticated_update_acknowledged_witness :
  fst (POST Samples.env_ok Samples.services
         (Samples.request (Some "s3cret")
            (Some (Samples.telegram_message Samples.agent (Some 7%Z) (Some "Hi")
                     (Some Samples.photos)))) []) = Returned json_ok.
Proof.
  apply (authenticated_update_acknowledged Samples.env_ok Samples.services
           (Samples.request (Some "s3cret")
              (Some (Samples.telegram_message Samples.agent (Some 7%Z) (Some "Hi")
                       (Some Samples.photos))))
           {| update_id := 1;
              update_message :=
                Some (Samples.telegram_message Samples.agent (Some 7%Z) (Some "Hi")
                        (Some Samples.photos)) |} []);
    reflexivity.
Defined.

(** [POST] never throws, and its answer is one of four: the
    acknowledgment, 500 "Webhook not configured", 401 "Unauthorized" or 400
    "Invalid JSON". *)
Theorem POST_answers env svc req tr :
  exists resp,
    fst (POST env svc req tr) = Returned resp /\
    (resp = json_ok \/
     resp = json_error "Webhook not configured" 500 \/
     resp = json_error "Unauthorized" 401 \/
     resp = json_error "Invalid JSON" 400).
Proof.
  destruct (truthy (TELEGRAM_WEBHOOK_SECRET env)) as [s|] eqn:Hs.
  - destruct (decide (req_secret_token req = Some s)) as [Hh|Hh].
    + assert (Hauth : authenticated env req).
      { unfold authenticated. rewrite Hs. exact Hh. }
      destruct (req_json req) as [update|] eqn:Hjson.
      * exists json_ok. split; [|tauto].
        unfold POST. rewrite Hs, (authenticated_check _ _ _ Hs Hh), Hjson.
        acknowledge_update svc update.
      * exists (json_error "Invalid JSON" 400). split; [|tauto].
        unfold POST, try_catch, ret.
        rewrite Hs, (authenticated_check _ _ _ Hs Hh), Hjson. reflexivity.
    + exists (json_error "Unauthorized" 401). split; [|tauto].
      rewrite (POST_unauthorized env svc req tr s Hs Hh). reflexivity.
  - exists (json_error "Webhook not configured" 500). split; [|tauto].
    rewrite (POST_misconfigured env svc req tr Hs). reflexivity.
Qed.

(** ** What a run calls *)

Lemma image_calls_silent calls :
  forallb image_call calls = true ->
  persisted calls = [] /\ warnings calls = [] /\ telegram_ids calls = [].
Proof.
  induction calls as [|c calls IH]; [repeat split|].
  simpl. intros H. apply andb_prop in H as [Hc Hcalls].
  destruct (IH Hcalls) as (Hp & Hw & Ht).
  destruct c; try discriminate; simpl; rewrite ?Hp, ?Hw, ?Ht; repeat split.
Qed.

(** The helper returns, and calls nothing but the three steps of the
    pipeline. *)
Lemma downloadAndUploadTelegramPhoto_calls svc fileId botToken tr :
  exists url calls,
    downloadAndUploadTelegramPhoto svc fileId botToken tr = (Returned url, tr ++ calls) /\
    forallb image_call calls = true.
Proof.
  unfold downloadAndUploadTelegramPhoto, try_catch, bind, ret, throw, call, await, field.
  destruct (fetchGetFile svc botToken fileId) as [fileData|];
    [|exists None, [CGetFile botToken fileId]; split; reflexivity].
  destruct (gf_ok fileData); simpl;
    [|exists None, [CGetFile botToken fileId]; split; reflexivity].
  destruct (gf_result fileData) as [result|]; simpl;
    [|exists None, [CGetFile botToken fileId]; split; reflexivity].
  destruct (truthy (file_path result)) as [filePath|];
    [|exists None, [CGetFile botToken fileId]; split; reflexivity].
  destruct (fetchDownload svc botToken filePath) as [d|]; simpl;
    [|exists None, [CGetFile botToken fileId; CDownloadFile botToken filePath];
      rewrite <- app_assoc; split; reflexivity].
  destruct (dl_ok d); simpl;
    [|exists None, [CGetFile botToken fileId; CDownloadFile botToken filePath];
      rewrite <- app_assoc; split; reflexivity].
  destruct (dl_arrayBuffer d) as [fileBlob|];
    [|exists None, [CGetFile botToken fileId; CDownloadFile botToken filePath];
      rewrite <- app_assoc; split; reflexivity].
  set (filename := photo_filename _ _ _).
  set (contentType := default _ _).
  destruct (storageUpload svc filename fileBlob contentType) as [[|path]|].
  - exists None, [CGetFile botToken fileId; CDownloadFile botToken filePath;
                  CUpload filename contentType].
    rewrite <- !app_assoc. split; reflexivity.
  - exists (Some (getPublicUrl svc path)),
      [CGetFile botToken fileId; CDownloadFile botToken filePath;
       CUpload filename contentType].
    rewrite <- !app_assoc. split; reflexivity.
  - exists None, [CGetFile botToken fileId; CDownloadFile botToken filePath;
                  CUpload filename contentType].
    rewrite <- !app_assoc. split; reflexivity.
Qed.

(** The image step of [POST]: the URL it yields and the calls it makes. *)
Lemma image_step env svc (message : TelegramMessage) tr :
  exists imageUrl calls,
    (match message_photo message with
     | Some (p :: ps) =>
         match truthy (TELEGRAM_BOT_TOKEN env) with
         | Some botToken =>
             bind (downloadAndUploadTelegramPhoto svc
                     (file_id (List.last (p :: ps) p)) botToken)
                  (fun url => ret (truthy url))
         | None => ret None
         end
     | _ => ret None
     end) tr = (Returned imageUrl, tr ++ calls) /\
    forallb image_call calls = true /\
    image_step_yields env svc message tr imageUrl calls.
Proof.
  unfold image_step_yields, photo_file_id.
  destruct (message_photo message) as [[|p ps]|] eqn:Hphoto;
    try (exists None, []; unfold ret; rewrite app_nil_r; repeat split; fail).
  destruct (truthy (TELEGRAM_BOT_TOKEN env)) as [botToken|] eqn:Htoken;
    try (exists None, []; unfold ret; rewrite app_nil_r; repeat split; fail).
  destruct (downloadAndUploadTelegramPhoto_calls svc
              (file_id (List.last (p :: ps) p)) botToken tr) as (url & calls & Hdl & Hcalls).
  exists (truthy url), calls. unfold bind, ret. rewrite Hdl.
  split; [reflexivity|]. split; [exact Hcalls|].
  exists url. split; reflexivity.
Qed.

(** The trace of a run that reaches a conversation: the lookup, the calls
    of the image helper, and then, unless there is neither content nor
    image, one [createMessage] followed, when it returns, by one
    [setMessageTelegramId] for the message it returned. *)
Lemma POST_resolved_trace env svc req update message threadId from conversation :
  authenticated env req ->
  req_json req = Some update ->
  update_message update = Some message ->
  isFromSupportGroup svc message = true ->
  truthyZ (extractThreadId svc message) = Some threadId ->
  message_from message = Some from ->
  user_is_bot from = false ->
  getConversationByThreadId svc threadId = Returned (Some conversation) ->
  exists imageUrl calls,
    forallb image_call calls = true /\
    image_step_yields env svc message [CGetConversationByThreadId threadId] imageUrl calls /\
    snd (run (POST env svc req)) =
      CGetConversationByThreadId threadId :: calls ++
      match message_content message, imageUrl with
      | None, None => []
      | content, _ =>
          let input := support_message_input conversation from content imageUrl in
          CCreateMessage input ::
          match createMessage svc input with
          | Returned supportMessage =>
              [CSetMessageTelegramId (msg_id supportMessage) (message_id message)]
          | Thrown => []
          end
      end.
Proof.
  intros Hauth Hjson Hm Hg Ht Hf Hb Hconv.
  destruct (authenticated_inv _ _ Hauth) as (s & Hs & Hh).
  destruct (image_step env svc message [CGetConversationByThreadId threadId])
    as (imageUrl & calls & Himg & Hcalls & Hurl).
  exists imageUrl, calls. split; [exact Hcalls|]. split; [exact Hurl|].
  unfold run, POST.
  rewrite Hs, (authenticated_check _ _ _ Hs Hh), Hjson, Hm, Hg, Ht, Hf.
  cbv [try_catch field bind ret call throw await].
  cbv [bind ret] in Himg.
  change (negb true) with false. cbv iota.
  rewrite Hb, Hconv, app_nil_l, Himg.
  unfold support_message_input.
  destruct (message_content message) as [text|], imageUrl as [url|]; simpl;
    try (destruct (createMessage svc _) as [supportMessage|];
         [destruct (setMessageTelegramId svc _ _) as [[]|]|];
         simpl; rewrite <- ?app_assoc; reflexivity).
  rewrite app_nil_r. reflexivity.
Qed.

(** Either the request reaches a conversation, or it does not. *)
Lemma classic_resolved env svc req :
  (exists update message threadId from conversation,
     authenticated env req /\
     req_json req = Some update /\
     update_message update = Some message /\
     isFromSupportGroup svc message = true /\
     truthyZ (extractThreadId svc message) = Some threadId /\
     message_from message = Some from /\
     user_is_bot from = false /\
     getConversationByThreadId svc threadId = Returned (Some conversation)) \/
  (forall update message threadId from conversation,
     req_json req = Some update ->
     update_message update = Some message ->
     isFromSupportGroup svc message = true ->
     truthyZ (extractThreadId svc message) = Some threadId ->
     message_from message = Some from ->
     user_is_bot from = false ->
     getConversationByThreadId svc threadId = Returned (Some conversation) ->
     ~ authenticated env req).
Proof.
  destruct (truthy (TELEGRAM_WEBHOOK_SECRET env)) as [s|] eqn:Hs;
    [|right; intros; unfold authenticated; rewrite Hs; tauto].
  destruct (decide (req_secret_token req = Some s)) as [Hh|Hh];
    [|right; intros; unfold authenticated; rewrite Hs; exact Hh].
  destruct (req_json req) as [update|]; [|right; intros; discriminate].
  destruct (update_message update) as [message|] eqn:Hm;
    [|right; intros ? ? ? ? ? [= <-]; congruence].
  destruct (isFromSupportGroup svc message) eqn:Hg;
    [|right; intros ? ? ? ? ? [= <-]; congruence].
  destruct (truthyZ (extractThreadId svc message)) as [threadId|] eqn:Ht;
    [|right; intros ? ? ? ? ? [= <-]; congruence].
  destruct (message_from message) as [from|] eqn:Hf;
    [|right; intros ? ? ? ? ? [= <-]; congruence].
  destruct (user_is_bot from) eqn:Hb;
    [right; intros ? ? ? ? ? [= <-]; congruence|].
  destruct (getConversationByThreadId svc threadId) as [[conversation|]|] eqn:Hconv;
    [|right; intros ? ? ? ? ? [= <-]; congruence..].
  left. exists update, message, threadId, from, conversation.
  unfold authenticated. rewrite Hs. repeat split; assumption.
Qed.

(** A run that does not reach a conversation calls at most the lookup and
    one warning post. *)
Lemma POST_unresolved_trace env svc req :
  (forall update message threadId from conversation,
     req_json req = Some update ->
     update_message update = Some message ->
     isFromSupportGroup svc message = true ->
     truthyZ (extractThreadId svc message) = Some threadId ->
     message_from message = Some from ->
     user_is_bot from = false ->
     getConversationByThreadId svc threadId = Returned (Some conversation) ->
     ~ authenticated env req) ->
  snd (run (POST env svc req)) = [] \/
  exists threadId,
    snd (run (POST env svc req)) = [CGetConversationByThreadId threadId] \/
    snd (run (POST env svc req)) =
      [CGetConversationByThreadId threadId;
       CSendMessageToTopic threadId warning_html "System"].
Proof.
  intros Hnot. unfold run.
  destruct (truthy (TELEGRAM_WEBHOOK_SECRET env)) as [s|] eqn:Hs;
    [|left; rewrite (POST_misconfigured env svc req [] Hs); reflexivity].
  destruct (decide (req_secret_token req = Some s)) as [Hh|Hh];
    [|left; rewrite (POST_unauthorized env svc req [] s Hs Hh); reflexivity].
  assert (Hauth : authenticated env req).
  { unfold authenticated. rewrite Hs. exact Hh. }
  unfold POST. rewrite Hs, (authenticated_check _ _ _ Hs Hh).
  cbv [try_catch field bind ret call throw await].
  destruct (req_json req) as [update|] eqn:Hjson; [|left; reflexivity].
  destruct (update_message update) as [message|] eqn:Hm; [|left; reflexivity].
  destruct (isFromSupportGroup svc message) eqn:Hg; [|left; reflexivity].
  change (negb true) with false. cbv iota.
  destruct (truthyZ (extractThreadId svc message)) as [threadId|] eqn:Ht;
    [|left; reflexivity].
  destruct (message_from message) as [from|] eqn:Hf; [|left; reflexivity].
  destruct (user_is_bot from) eqn:Hb; [left; reflexivity|].
  right. exists threadId.
  destruct (getConversationByThreadId svc threadId) as [[conversation|]|] eqn:Hconv.
  - exfalso. eapply Hnot; eauto.
  - destruct (isConfigured svc); [|left; reflexivity].
    right. destruct (sendMessageToTopic svc threadId warning_html "System") as [[]|];
      reflexivity.
  - left. reflexivity.
Qed.

(** In every run, whatever the request and the services: at most one
    message is handed to persistence; a platform message id is attached
    only to a message that was; at most one warning is posted, and never in
    a run that persists a message. *)
Theorem POST_call_bounds env svc req :
  let tr := snd (run (POST env svc req)) in
  length (persisted tr) <= 1 /\
  length (telegram_ids tr) <= length (persisted tr) /\
  length (persisted tr) + length (warnings tr) <= 1.
Proof.
  intros tr. subst tr.
  destruct (classic_resolved env svc req) as [Hres|Hnot].
  - destruct Hres as (update & message & threadId & from & conversation &
                      Hauth & Hjson & Hm & Hg & Ht & Hf & Hb & Hconv).
    destruct (POST_resolved_trace env svc req update message threadId from conversation
                Hauth Hjson Hm Hg Ht Hf Hb Hconv) as (imageUrl & calls & Hcalls & _ & ->).
    destruct (image_calls_silent calls Hcalls) as (Hp & Hw & Hi).
    unfold persisted, warnings, telegram_ids in *.
    cbn [omap list_omap]. rewrite !omap_app, Hp, Hw, Hi.
    destruct (message_content message), imageUrl;
      try (cbn; destruct (createMessage svc _); cbn; lia).
    cbn. lia.
  - destruct (POST_unresolved_trace env svc req Hnot) as [-> | (t & [-> | ->])];
      cbn; lia.
Qed.

(** An authenticated update that passes the filters, in a thread with a
    conversation, with a text or caption: exactly one message is handed to
    persistence, authored by support for that conversation with the sender's
    name and id and the text; when [createMessage] returns, the platform
    message id is attached exactly once, to the message it returned; no
    warning is posted. *)
Theorem valid_update_persisted_once
  env svc req update message threadId from conversation text :
  authenticated env req ->
  req_json req = Some update ->
  update_message update = Some message ->
  isFromSupportGroup svc message = true ->
  truthyZ (extractThreadId svc message) = Some threadId ->
  message_from message = Some from ->
  user_is_bot from = false ->
  getConversationByThreadId svc threadId = Returned (Some conversation) ->
  message_content message = Some text ->
  let tr := snd (run (POST env svc req)) in
  exists imageUrl,
    let input := support_message_input conversation from (Some text) imageUrl in
    persisted tr = [input] /\
    telegram_ids tr =
      match createMessage svc input with
      | Returned supportMessage => [(msg_id supportMessage, message_id message)]
      | Thrown => []
      end /\
    warnings tr = [].
Proof.
  intros Hauth Hjson Hm Hg Ht Hf Hb Hconv Hcontent tr. subst tr.
  destruct (POST_resolved_trace env svc req update message threadId from conversation
              Hauth Hjson Hm Hg Ht Hf Hb Hconv) as (imageUrl & calls & Hcalls & _ & ->).
  destruct (image_calls_silent calls Hcalls) as (Hp & Hw & Hi).
  exists imageUrl. rewrite Hcontent.
  unfold persisted, warnings, telegram_ids in *.
  cbn [omap list_omap]. rewrite !omap_app, Hp, Hw, Hi.
  destruct imageUrl; cbn; destruct (createMessage svc _); cbn; repeat split.
Qed.

Lemma valid_update_persisted_once_witness :
  exists imageUrl,
    persisted (snd (run (POST Samples.env_ok Samples.services
      (Samples.request (Some "s3cret")
         (Some (Samples.telegram_message Samples.agent (Some 7%Z) (Some "Hi") None)))))) =
      [support_message_input Samples.conversation_a Samples.agent (Some "Hi") imageUrl].
Proof.
  destruct (valid_update_persisted_once Samples.env_ok Samples.services
              (Samples.request (Some "s3cret")
                 (Some (Samples.telegram_message Samples.agent (Some 7%Z) (Some "Hi") None)))
              {| update_id := 1;
                 update_message :=
                   Some (Samples.telegram_message Samples.agent (Some 7%Z) (Some "Hi") None) |}
              (Samples.telegram_message Samples.agent (Some 7%Z) (Some "Hi") None)
              7%Z Samples.agent Samples.conversation_a "Hi"
              eq_refl eq_refl eq_refl eq_refl eq_refl eq_refl eq_refl eq_refl eq_refl)
    as (imageUrl & H & _).
  exists imageUrl. exact H.
Defined.

(** ** The image pipeline when it works *)

(** Run the helper along a pipeline that succeeds. *)
Ltac run_pipeline Hok :=
  destruct Hok as [fileData result d fileBlob Hgf Hgfok Hres Hpath Hdl Hdok Hbuf Hct Hup];
  unfold downloadAndUploadTelegramPhoto, try_catch, bind, ret, throw, call, await, field;
  rewrite Hgf, Hgfok; simpl; rewrite Hres; simpl; rewrite Hpath, Hdl, Hdok; simpl;
  rewrite Hbuf, <- Hct, Hup; rewrite <- ?app_assoc; reflexivity.

(** When the metadata, the download and the upload all succeed, the helper
    makes exactly these three calls, uploads under the generated name with
    the content type of the download (or [image/jpeg]), and returns the
    public URL of the stored path. *)
Theorem image_upload_succeeds svc botToken fileId filePath contentType path tr :
  image_pipeline_succeeds svc botToken fileId filePath contentType path ->
  downloadAndUploadTelegramPhoto svc fileId botToken tr =
    (Returned (Some (getPublicUrl svc path)),
     tr ++ [CGetFile botToken fileId;
            CDownloadFile botToken filePath;
            CUpload (photo_filename (date_now svc) (random_string svc) filePath)
                    contentType]).
Proof. intros Hok. run_pipeline Hok. Qed.

Lemma image_upload_succeeds_witness :
  fst (downloadAndUploadTelegramPhoto Samples.services_with_images "large" "123:abc" []) =
    Returned (Some "https://storage.example/support-images/telegram_1700000000000_k3j9x0q1z2.png").
Proof.
  refine (f_equal fst (image_upload_succeeds Samples.services_with_images
            "123:abc" "large" "photos/file_7.png" "image/jpeg"
            "telegram_1700000000000_k3j9x0q1z2.png" [] _)).
  eapply pipeline_ok; reflexivity.
Defined.

(** An authenticated update that passes the filters, in a thread with a
    conversation, with a photo, a configured bot token and a working image
    pipeline: one message is handed to persistence, with the public URL of
    the re-hosted image, also when the update has neither text nor caption. *)
Theorem photo_message_persisted_with_image
  env svc req update message threadId from conversation
  fileId botToken filePath contentType path url :
  authenticated env req ->
  req_json req = Some update ->
  update_message update = Some message ->
  isFromSupportGroup svc message = true ->
  truthyZ (extractThreadId svc message) = Some threadId ->
  message_from message = Some from ->
  user_is_bot from = false ->
  getConversationByThreadId svc threadId = Returned (Some conversation) ->
  photo_file_id message = Some fileId ->
  truthy (TELEGRAM_BOT_TOKEN env) = Some botToken ->
  image_pipeline_succeeds svc botToken fileId filePath contentType path ->
  truthy (Some (getPublicUrl svc path)) = Some url ->
  persisted (snd (run (POST env svc req))) =
    [support_message_input conversation from (message_content message) (Some url)].
Proof.
  intros Hauth Hjson Hm Hg Ht Hf Hb Hconv Hfid Htoken Hok Hurl.
  destruct (POST_resolved_trace env svc req update message threadId from conversation
              Hauth Hjson Hm Hg Ht Hf Hb Hconv) as (imageUrl & calls & Hcalls & Hyield & ->).
  destruct (image_calls_silent calls Hcalls) as (Hp & _ & _).
  unfold image_step_yields in Hyield. rewrite Hfid, Htoken in Hyield.
  destruct Hyield as (url' & Hyield & ->).
  assert (Hrun : downloadAndUploadTelegramPhoto svc fileId botToken
                   [CGetConversationByThreadId threadId] =
                 (Returned (Some (getPublicUrl svc path)),
                  [CGetConversationByThreadId threadId] ++
                  [CGetFile botToken fileId; CDownloadFile botToken filePath;
                   CUpload (photo_filename (date_now svc) (random_string svc) filePath)
                           contentType])).
  { run_pipeline Hok. }
  rewrite Hrun in Hyield. injection Hyield as <- _. rewrite Hurl.
  unfold persisted in *. cbn [omap list_omap]. rewrite omap_app, Hp.
  destruct (message_content message); cbn; destruct (createMessage svc _); reflexivity.
Qed.

Lemma photo_message_persisted_with_image_witness :
  persisted (snd (run (POST Samples.env_ok Samples.services_with_images
    (Samples.request (Some "s3cret")
       (Some (Samples.telegram_message Samples.agent (Some 7%Z) None
                (Some Samples.photos))))))) =
    [support_message_input Samples.conversation_a Samples.agent None
       (Some "https://storage.example/support-images/telegram_1700000000000_k3j9x0q1z2.png")].
Proof.
  refine (photo_message_persisted_with_image
            Samples.env_ok Samples.services_with_images
            (Samples.request (Some "s3cret")
               (Some (Samples.telegram_message Samples.agent (Some 7%Z) None
                        (Some Samples.photos))))
            {| update_id := 1;
               update_message :=
                 Some (Samples.telegram_message Samples.agent (Some 7%Z) None
                         (Some Samples.photos)) |}
            (Samples.telegram_message Samples.agent (Some 7%Z) None (Some Samples.photos))
            7%Z Samples.agent Samples.conversation_a
            "large" "123:abc" "photos/file_7.png" "image/jpeg"
            "telegram_1700000000000_k3j9x0q1z2.png"
            "https://storage.example/support-images/telegram_1700000000000_k3j9x0q1z2.png"
            eq_refl eq_refl eq_refl eq_refl eq_refl eq_refl eq_refl eq_refl eq_refl eq_refl
            _ eq_refl).
  eapply pipeline_ok; reflexivity.
Defined.

(** ** The name of the stored file *)

Lemma append_snoc acc c s : (acc +:+ String c "") +:+ s = acc +:+ String c s.
Proof.
  induction acc as [|a acc IH]; [reflexivity|].
  change (String a ((acc +:+ String c "") +:+ s) = String a (acc +:+ String c s)).
  f_equal. exact IH.
Qed.

Lemma append_empty_r s : s +:+ "" = s.
Proof.
  induction s as [|a s IH]; [reflexivity|].
  change (String a (s +:+ "") = String a s). f_equal. exact IH.
Qed.

Lemma split_pop_dotless s acc : dotless s = true -> split_pop s acc = acc +:+ s.
Proof.
  revert acc. induction s as [|c s IH]; intros acc Hs.
  - cbn. symmetry. apply append_empty_r.
  - cbn in Hs. apply andb_prop in Hs as [Hc Hs]. cbn.
    destruct (Ascii.eqb c "."); [discriminate|].
    rewrite IH by exact Hs. apply append_snoc.
Qed.

Lemma split_pop_after_dot a b acc :
  split_pop (a +:+ String "." b) acc = split_pop b "".
Proof.
  revert acc. induction a as [|c a IH]; intros acc.
  - reflexivity.
  - change (String c a +:+ String "." b) with (String c (a +:+ String "." b)).
    cbn [split_pop]. destruct (Ascii.eqb c "."); apply IH.
Qed.

(** The extension in the stored name is the text after the last dot of the
    file path; a path without a dot is taken whole as the extension, and
    only a path that ends in a dot (or is empty) gets [jpg]. *)
Theorem photo_filename_extension timestamp randomString :
  (forall a b, dotless b = true -> b <> "" ->
     photo_filename timestamp randomString (a +:+ String "." b) =
     "telegram_" +:+ timestamp +:+ "_" +:+ randomString +:+ "." +:+ b) /\
  (forall s, dotless s = true -> s <> "" ->
     photo_filename timestamp randomString s =
     "telegram_" +:+ timestamp +:+ "_" +:+ randomString +:+ "." +:+ s) /\
  (forall a,
     photo_filename timestamp randomString (a +:+ ".") =
     "telegram_" +:+ timestamp +:+ "_" +:+ randomString +:+ ".jpg").
Proof.
  unfold photo_filename. split; [|split].
  - intros a b Hb Hne. rewrite split_pop_after_dot, split_pop_dotless by exact Hb.
    cbn [String.append]. rewrite truthy_of_nonempty by exact Hne. reflexivity.
  - intros s Hs Hne. rewrite split_pop_dotless by exact Hs.
    cbn [String.append]. rewrite truthy_of_nonempty by exact Hne. reflexivity.
  - intros a. rewrite split_pop_after_dot. reflexivity.
Qed.

Lemma photo_filename_extension_witness :
  photo_filename "1700000000000" "k3j9x0q1z2" ("photos/file_7" +:+ String "." "png") =
    "telegram_1700000000000_k3j9x0q1z2.png" /\
  photo_filename "1700000000000" "k3j9x0q1z2" "photos" =
    "telegram_1700000000000_k3j9x0q1z2.photos".
Proof.
  split.
  - apply (proj1 (photo_filename_extension "1700000000000" "k3j9x0q1z2")
             "photos/file_7" "png"); [reflexivity | discriminate].
  - apply (proj1 (proj2 (photo_filename_extension "1700000000000" "k3j9x0q1z2"))
             "photos"); [reflexivity | discriminate].
Defined.

(** ** The debugging endpoint *)

(** [GET] reports the webhook secret as not configured exactly when [POST]
    answers every request with 500 "Webhook not configured". *)
Theorem GET_reports_misconfiguration env svc forumGroupId :
  configured_webhook_secret (GET env forumGroupId) = false <->
  (forall req, fst (run (POST env svc req)) =
               Returned (json_error "Webhook not configured" 500)).
Proof.
  unfold GET, run. simpl. split.
  - intros Hcfg req.
    destruct (truthy (TELEGRAM_WEBHOOK_SECRET env)) as [s|] eqn:Hs.
    + rewrite bool_decide_eq_true_2 in Hcfg by eauto. discriminate.
    + rewrite (POST_misconfigured env svc req [] Hs). reflexivity.
  - intros Hall.
    destruct (truthy (TELEGRAM_WEBHOOK_SECRET env)) as [s|] eqn:Hs.
    + specialize (Hall {| req_secret_token := None; req_json := None |}).
      rewrite (POST_unauthorized env svc _ [] s Hs) in Hall by discriminate.
      discriminate.
    + apply bool_decide_eq_false_2. intros [x Hx]. discriminate.
Qed.

End WebhookCoverage.

(** * Further properties of the synchronization store *)

Section StoreCoverage.

Import Store.

(** ** A send that is not confirmed *)

Lemma filter_not_tempId_absent tempId (l : list SupportMessage) :
  ~ Exists (fun m => msg_id m = tempId) l ->
  filter (fun m => msg_id m <> tempId) l = l.
Proof.
  induction l as [|m l IH]; intros Habs; [reflexivity|].
  rewrite filter_cons. destruct (decide (msg_id m <> tempId)) as [_|Heq].
  - rewrite IH; [reflexivity|]. intros E. apply Habs. right. exact E.
  - exfalso. apply Habs. left. destruct (decide (msg_id m = tempId)); tauto.
Qed.

Lemma filter_placeholder_after_send tempId (l : list SupportMessage) tm :
  msg_id tm = tempId ->
  ~ Exists (fun m => msg_id m = tempId) l ->
  filter (fun m => msg_id m <> tempId) (l ++ [tm]) = l.
Proof.
  intros Htm Habs. rewrite filter_app, filter_not_tempId_absent by exact Habs.
  rewrite filter_cons. destruct (decide (msg_id tm <> tempId)); [contradiction|].
  apply app_nil_r.
Qed.

(** When the request of a send fails, the placeholder is removed at once:
    the message list is what it was before the send (no other message has
    the placeholder id), the error of the response is shown, the sending
    flag is down and the device storage is untouched. *)
Theorem send_rejected_restores_list
  w conversation anonymousId content imageUrl now random created_at message :
  currentConversation (store w) = Some conversation ->
  truthy (support_anonymous_id (localStorage w)) = Some anonymousId ->
  ~ Exists (fun m => msg_id m = make_tempId now random) (messages (store w)) ->
  let w' := sendMessage_rejected (make_tempId now random) message
              (sendMessage content imageUrl now random created_at w) in
  messages (store w') = messages (store w) /\
  error (store w') = Some message /\
  isSending (store w') = false /\
  localStorage w' = localStorage w.
Proof.
  intros Hconv Hanon Habs w'. subst w'.
  unfold sendMessage. rewrite Hconv, Hanon. simpl.
  rewrite filter_placeholder_after_send by (reflexivity || exact Habs).
  repeat split.
Qed.

Lemma send_rejected_restores_list_witness :
  messages (store
    (sendMessage_rejected (make_tempId "1700000000000" "0.42") "Failed to send message"
       (sendMessage "Hello" None "1700000000000" "0.42" "2024-01-01T00:00:03.000Z"
          (Samples.world_with [Samples.stored_message "m-1" (Some "Hi")])))) =
  [Samples.stored_message "m-1" (Some "Hi")].
Proof.
  refine (proj1 (send_rejected_restores_list
    (Samples.world_with [Samples.stored_message "m-1" (Some "Hi")])
    Samples.conversation_a "visitor-1" "Hello" None "1700000000000" "0.42"
    "2024-01-01T00:00:03.000Z" "Failed to send message" eq_refl eq_refl _)).
  intros E. inversion E as [? ? H|? ? H]; [discriminate H | inversion H].
Defined.

Lemma take_timer_queued tempId l :
  exists rest, take_timer tempId (l ++ [tempId]) = Some rest /\ length rest = length l.
Proof.
  induction l as [|t l (rest & IH & Hlen)]; simpl.
  - destruct (decide (tempId = tempId)); [|congruence]. exists []. split; reflexivity.
  - destruct (decide (t = tempId)).
    + exists (l ++ [tempId]). split; [reflexivity|]. rewrite length_app. simpl. lia.
    + rewrite IH. exists (t :: rest). split; [reflexivity|]. simpl. lia.
Qed.

(** When the request of a send succeeds and no insert event arrives before
    the cleanup timer fires, the placeholder is removed all the same: the
    message list is again what it was before the send, so the text that was
    sent is not shown until its event arrives. *)
Theorem send_cleanup_without_event
  w conversation anonymousId content imageUrl now random created_at :
  currentConversation (store w) = Some conversation ->
  truthy (support_anonymous_id (localStorage w)) = Some anonymousId ->
  ~ Exists (fun m => msg_id m = make_tempId now random) (messages (store w)) ->
  let tempId := make_tempId now random in
  let w' := run_actions [ASendMessageResolved tempId; ATimerFires tempId]
              (sendMessage content imageUrl now random created_at w) in
  messages (store w') = messages (store w) /\
  isSending (store w') = false /\
  length (timers w') = length (timers w).
Proof.
  intros Hconv Hanon Habs tempId w'. subst w'.
  unfold sendMessage. rewrite Hconv, Hanon.
  cbn [run_actions fold_left step].
  unfold timer_fires, sendMessage_resolved. cbn [timers set_timers with_store].
  destruct (take_timer_queued tempId (timers w)) as (rest & -> & Hlen).
  simpl. rewrite filter_placeholder_after_send by (reflexivity || exact Habs).
  repeat split. exact Hlen.
Qed.

Lemma send_cleanup_without_event_witness :
  messages (store
    (run_actions [ASendMessageResolved (make_tempId "1700000000000" "0.42");
                  ATimerFires (make_tempId "1700000000000" "0.42")]
       (sendMessage "Hello" None "1700000000000" "0.42" "2024-01-01T00:00:03.000Z"
          (Samples.world_with [])))) = [].
Proof.
  refine (proj1 (send_cleanup_without_event (Samples.world_with [])
    Samples.conversation_a "visitor-1" "Hello" None "1700000000000" "0.42"
    "2024-01-01T00:00:03.000Z" eq_refl eq_refl _)).
  intros E. inversion E.
Defined.

(** ** The realtime handler: cache, counter, ids *)

Lemma onInsert_fresh_world conversationId newMessage w :
  ~ Exists (fun m => msg_id m = msg_id newMessage) (messages (store w)) ->
  let updated :=
    filter (fun m => is_temp (msg_id m) = false) (messages (store w)) ++ [newMessage] in
  messages (store (onInsert conversationId newMessage w)) = updated /\
  localStorage (onInsert conversationId newMessage w) =
    {| support_anonymous_id := support_anonymous_id (localStorage w);
       support_messages :=
         <[cacheKey conversationId := updated]> (support_messages (localStorage w)) |} /\
  unreadCount (store (onInsert conversationId newMessage w)) =
    (if bool_decide (msg_sender_type newMessage = SenderSupport) && negb (isOpen (store w))
     then unreadCount (store w) + 1 else unreadCount (store w))%Z.
Proof.
  intros H updated. unfold onInsert.
  rewrite bool_decide_eq_false_2 by exact H. simpl.
  destruct (bool_decide (msg_sender_type newMessage = SenderSupport) &&
            negb (isOpen (store w))); repeat split.
Qed.

(** After an insert event with a new id, the cache entry of the subscribed
    conversation is the message list now shown, the other entries and the
    visitor id are as before, and, when the new id is not of the placeholder
    form, the cached list holds no placeholder. *)
Theorem realtime_insert_writes_cache conversationId newMessage w :
  ~ Exists (fun m => msg_id m = msg_id newMessage) (messages (store w)) ->
  let w' := onInsert conversationId newMessage w in
  support_messages (localStorage w') !! cacheKey conversationId =
    Some (messages (store w')) /\
  (forall key, key <> cacheKey conversationId ->
     support_messages (localStorage w') !! key = support_messages (localStorage w) !! key) /\
  support_anonymous_id (localStorage w') = support_anonymous_id (localStorage w) /\
  (is_temp (msg_id newMessage) = false ->
   Forall (fun m => is_temp (msg_id m) = false) (messages (store w'))).
Proof.
  intros H w'. subst w'.
  destruct (onInsert_fresh_world conversationId newMessage w H) as (Hm & Hls & _).
  rewrite Hm, Hls. simpl. split; [apply lookup_insert_eq|].
  split; [intros key Hkey; apply lookup_insert_ne; congruence|].
  split; [reflexivity|].
  intros Hnew. apply Forall_app. split; [apply filter_nontemp_Forall|].
  constructor; [exact Hnew | constructor].
Qed.

Lemma realtime_insert_writes_cache_witness :
  support_messages
    (localStorage (onInsert "conv-a" (Samples.stored_message "m-2" (Some "Hello"))
                     (Samples.world_with [Samples.stored_message "m-1" (Some "Hi")])))
    !! cacheKey "conv-a" =
  Some (messages (store (onInsert "conv-a" (Samples.stored_message "m-2" (Some "Hello"))
                           (Samples.world_with [Samples.stored_message "m-1" (Some "Hi")])))).
Proof.
  refine (proj1 (realtime_insert_writes_cache "conv-a"
            (Samples.stored_message "m-2" (Some "Hello"))
            (Samples.world_with [Samples.stored_message "m-1" (Some "Hi")]) _)).
  intros E. inversion E as [? ? H|? ? H]; [discriminate H | inversion H].
Defined.

(** The unread counter grows by one exactly for an event that is new, from
    support, and received while the widget is closed; every other event
    leaves it, and opening the widget resets it to zero. *)
Theorem realtime_insert_unread_count conversationId newMessage w :
  unreadCount (store (onInsert conversationId newMessage w)) =
    (if negb (bool_decide (Exists (fun m => msg_id m = msg_id newMessage)
                                  (messages (store w)))) &&
        bool_decide (msg_sender_type newMessage = SenderSupport) &&
        negb (isOpen (store w))
     then unreadCount (store w) + 1 else unreadCount (store w))%Z /\
  unreadCount (store (openWidget (onInsert conversationId newMessage w))) = 0%Z.
Proof.
  split; [|reflexivity].
  destruct (decide (Exists (fun m => msg_id m = msg_id newMessage) (messages (store w))))
    as [H|H].
  - rewrite onInsert_present by exact H.
    rewrite (bool_decide_eq_true_2 (Exists _ _)) by exact H. reflexivity.
  - destruct (onInsert_fresh_world conversationId newMessage w H) as (_ & _ & ->).
    rewrite (bool_decide_eq_false_2 (Exists _ _)) by exact H. reflexivity.
Qed.

Lemma NoDup_ids_filter (P : SupportMessage -> Prop) `{!forall m, Decision (P m)} l :
  NoDup (map msg_id l) -> NoDup (map msg_id (filter P l)).
Proof.
  induction l as [|m l IH]; [intros; constructor|].
  simpl. rewrite NoDup_cons. intros [Hm Hl].
  rewrite filter_cons. destruct (decide (P m)); [|auto].
  simpl. apply NoDup_cons. split; [|auto].
  intros Hin. apply Hm. apply list_elem_of_fmap in Hin as (x & Hx & Hin).
  apply list_elem_of_filter in Hin as [_ Hin].
  apply list_elem_of_fmap. exists x. split; assumption.
Qed.

(** The handler keeps the ids of the message list distinct. *)
Theorem realtime_insert_keeps_ids_distinct conversationId newMessage w :
  NoDup (map msg_id (messages (store w))) ->
  NoDup (map msg_id (messages (store (onInsert conversationId newMessage w)))).
Proof.
  intros Hnodup.
  destruct (decide (Exists (fun m => msg_id m = msg_id newMessage) (messages (store w))))
    as [H|H].
  - rewrite onInsert_present by exact H. exact Hnodup.
  - rewrite onInsert_fresh_messages by exact H.
    rewrite map_app. apply NoDup_app. split; [|split].
    + apply NoDup_ids_filter. exact Hnodup.
    + intros id Hin Hnew. simpl in Hnew. apply list_elem_of_singleton in Hnew. subst id.
      apply H. apply Exists_exists.
      apply list_elem_of_fmap in Hin as (x & Hx & Hin).
      apply list_elem_of_filter in Hin as [_ Hin]. exists x. split; [exact Hin | congruence].
    + simpl. apply NoDup_singleton.
Qed.

Lemma realtime_insert_keeps_ids_distinct_witness :
  NoDup (map msg_id
    (messages (store (onInsert "conv-a" (Samples.stored_message "m-2" (Some "Hello"))
                        (Samples.world_with [Samples.stored_message "m-1" (Some "Hi")]))))).
Proof.
  apply (realtime_insert_keeps_ids_distinct "conv-a"
           (Samples.stored_message "m-2" (Some "Hello"))
           (Samples.world_with [Samples.stored_message "m-1" (Some "Hi")])).
  simpl. apply NoDup_singleton.
Defined.

(** An event delivered on two channels, as happens when two subscriptions
    are open, is applied once: the second delivery changes nothing. *)
Theorem duplicate_delivery_applied_once ch1 ch2 newMessage w c1 :
  List.find (fun c => bool_decide (ch_id c = ch1)) (channels w) = Some c1 ->
  run_actions [ARealtimeInsert ch1 newMessage; ARealtimeInsert ch2 newMessage] w =
  run_actions [ARealtimeInsert ch1 newMessage] w.
Proof.
  intros Hch1. cbn [run_actions fold_left step]. rewrite Hch1.
  destruct (onInsert_subscription (ch_conversationId c1) newMessage w) as [-> _].
  destruct (List.find (fun c => bool_decide (ch_id c = ch2)) (channels w)) as [c2|];
    [|reflexivity].
  apply onInsert_present, onInsert_then_present.
Qed.

Lemma duplicate_delivery_applied_once_witness :
  run_actions [ARealtimeInsert 0 (Samples.stored_message "m-2" (Some "Hello"));
               ARealtimeInsert 0 (Samples.stored_message "m-2" (Some "Hello"))]
    (Samples.world_with []) =
  run_actions [ARealtimeInsert 0 (Samples.stored_message "m-2" (Some "Hello"))]
    (Samples.world_with []).
Proof.
  apply (duplicate_delivery_applied_once 0 0 (Samples.stored_message "m-2" (Some "Hello"))
           (Samples.world_with []) {| ch_id := 0; ch_conversationId := "conv-a" |}).
  reflexivity.
Defined.

(** ** The device cache *)

Lemma subscribeToMessages_store conversationId w :
  store (fst (subscribeToMessages conversationId w)) = store w /\
  localStorage (fst (subscribeToMessages conversationId w)) = localStorage w.
Proof.
  unfold subscribeToMessages.
  destruct (activeSubscription w) as [active|]; [|split; reflexivity].
  destruct (decide _); split; reflexivity.
Qed.

(** Selecting a conversation shows at once what the cache holds for it, and
    nothing when the cache has no entry. *)
Lemma setCurrentConversation_hydrates c w :
  messages (store (setCurrentConversation (Some c) w)) =
    default [] (support_messages (localStorage w) !! cacheKey (conv_id c)) /\
  currentConversation (store (setCurrentConversation (Some c) w)) = Some c.
Proof.
  unfold setCurrentConversation.
  set (w1 := match activeSubscription w with
             | Some active => set_activeSubscription None (unsubscribe (sub_unsubscribe active) w)
             | None => w
             end).
  assert (Hls : localStorage w1 = localStorage w).
  { subst w1. destruct (activeSubscription w); reflexivity. }
  rewrite Hls.
  destruct (truthy _); [|split; reflexivity].
  destruct (subscribeToMessages_store (conv_id c)
              (with_store
                 (fun s => set_messages
                             (default [] (support_messages (localStorage w) !! cacheKey (conv_id c)))
                             (set_currentConversation (Some c) s)) w1)) as [-> _].
  split; reflexivity.
Qed.

(** What the store wrote to the cache is what a later selection of the
    conversation shows first: the loaded list after a non-empty load, and
    the confirmed messages with the new one after an insert event. A
    conversation without a cache entry starts empty. *)
Theorem cache_round_trip c w :
  (forall msgs, 0 < length msgs ->
     messages (store (setCurrentConversation (Some c)
       (loadConversationMessages_done (conv_id c) (LoadOk (Some msgs)) w))) = msgs) /\
  (forall newMessage,
     ~ Exists (fun m => msg_id m = msg_id newMessage) (messages (store w)) ->
     messages (store (setCurrentConversation (Some c) (onInsert (conv_id c) newMessage w))) =
       filter (fun m => is_temp (msg_id m) = false) (messages (store w)) ++ [newMessage]) /\
  (support_messages (localStorage w) !! cacheKey (conv_id c) = None ->
   messages (store (setCurrentConversation (Some c) w)) = []).
Proof.
  split; [|split].
  - intros msgs Hlen.
    rewrite (proj1 (setCurrentConversation_hydrates c _)).
    unfold loadConversationMessages_done. simpl.
    destruct (decide (0 < length msgs)); [|contradiction].
    simpl. rewrite lookup_insert_eq. reflexivity.
  - intros newMessage Hnew.
    rewrite (proj1 (setCurrentConversation_hydrates c _)).
    destruct (onInsert_fresh_world (conv_id c) newMessage w Hnew) as (_ & -> & _).
    simpl. rewrite lookup_insert_eq. reflexivity.
  - intros Hnone. rewrite (proj1 (setCurrentConversation_hydrates c _)), Hnone.
    reflexivity.
Qed.

Lemma cache_round_trip_witness :
  messages (store (setCurrentConversation (Some Samples.conversation_a)
    (loadConversationMessages_done "conv-a"
       (LoadOk (Some [Samples.stored_message "m-1" (Some "Hi")]))
       (initial_world Samples.storage_with_visitor)))) =
  [Samples.stored_message "m-1" (Some "Hi")].
Proof.
  apply (proj1 (cache_round_trip Samples.conversation_a
                  (initial_world Samples.storage_with_visitor))
           [Samples.stored_message "m-1" (Some "Hi")]).
  simpl. lia.
Defined.

Lemma setCurrentConversation_storage conversation w :
  localStorage (setCurrentConversation conversation w) = localStorage w.
Proof.
  unfold setCurrentConversation.
  set (w1 := match activeSubscription w with
             | Some active =>
                 set_activeSubscription None (unsubscribe (sub_unsubscribe active) w)
             | None => w
             end).
  assert (Hls : localStorage w1 = localStorage w).
  { subst w1. destruct (activeSubscription w); reflexivity. }
  destruct conversation as [c|]; [|exact Hls].
  destruct (truthy _); [|exact Hls].
  rewrite (proj2 (subscribeToMessages_store _ _)). exact Hls.
Qed.

(** The actions that do not write the device storage. *)
Lemma step_storage_same a w :
  match a with
  | ALoadConversationMessagesDone _ _ | ARealtimeInsert _ _ => True
  | _ => localStorage (step a w) = localStorage w
  end.
Proof.
  destruct a; cbn [step]; try reflexivity; try exact I.
  - destruct response; reflexivity.
  - unfold createConversation_done. destruct response; [reflexivity|].
    rewrite (proj2 (subscribeToMessages_store _ _)). reflexivity.
  - apply setCurrentConversation_storage.
  - destruct response; reflexivity.
  - unfold sendMessage. destruct (currentConversation (store w)); [|reflexivity].
    destruct (truthy _); reflexivity.
  - unfold timer_fires. destruct (take_timer tempId (timers w)); reflexivity.
  - apply subscribeToMessages_store.
Qed.

Lemma step_storage a w :
  support_anonymous_id (localStorage (step a w)) = support_anonymous_id (localStorage w) /\
  (forall key, (forall conversationId, key <> cacheKey conversationId) ->
     support_messages (localStorage (step a w)) !! key =
     support_messages (localStorage w) !! key).
Proof.
  pose proof (step_storage_same a w) as Hsame.
  destruct a; try (rewrite Hsame; split; reflexivity); cbn [step].
  - unfold loadConversationMessages_done. destruct response; [split; reflexivity|].
    destruct (decide _); [|split; reflexivity].
    simpl. split; [reflexivity|].
    intros key Hkey. apply lookup_insert_ne, not_eq_sym, Hkey.
  - destruct (List.find _ (channels w)) as [c|]; [|split; reflexivity].
    unfold onInsert. destruct (negb _); [|split; reflexivity].
    destruct (_ && _); simpl; (split; [reflexivity|]);
      intros key Hkey; apply lookup_insert_ne, not_eq_sym, Hkey.
Qed.

(** Whatever happens to the store, it never writes the visitor id, and the
    only storage keys it writes are message cache keys
    [support_messages_<id>]. *)
Theorem store_writes_only_message_caches acts w :
  support_anonymous_id (localStorage (run_actions acts w)) =
    support_anonymous_id (localStorage w) /\
  (forall key, (forall conversationId, key <> cacheKey conversationId) ->
     support_messages (localStorage (run_actions acts w)) !! key =
     support_messages (localStorage w) !! key).
Proof.
  revert w. induction acts as [|a acts IH]; intros w; [split; reflexivity|].
  cbn [run_actions fold_left]. destruct (IH (step a w)) as [Hid Hkeys].
  destruct (step_storage a w) as [Hid1 Hkeys1].
  unfold run_actions in *. split.
  - rewrite Hid. exact Hid1.
  - intros key Hkey. rewrite Hkeys by exact Hkey. apply Hkeys1, Hkey.
Qed.

Lemma cache_clean_insert key l ls :
  cache_clean ls ->
  Forall (fun m => is_temp (msg_id m) = false) l ->
  cache_clean {| support_anonymous_id := support_anonymous_id ls;
                 support_messages := <[key := l]> (support_messages ls) |}.
Proof.
  intros Hclean Hl key' l' Hlookup. simpl in Hlookup.
  destruct (decide (key = key')) as [->|Hne].
  - rewrite lookup_insert_eq in Hlookup. injection Hlookup as <-. exact Hl.
  - rewrite lookup_insert_ne in Hlookup by exact Hne. eapply Hclean, Hlookup.
Qed.

Lemma step_cache_clean a w :
  server_ids a -> cache_clean (localStorage w) -> cache_clean (localStorage (step a w)).
Proof.
  intros Hids Hclean.
  pose proof (step_storage_same a w) as Hsame.
  destruct a; try (rewrite Hsame; exact Hclean); cbn [step].
  - unfold loadConversationMessages_done. destruct response as [|[msgs|]]; try exact Hclean.
    simpl. destruct (decide _); [|exact Hclean].
    apply cache_clean_insert; assumption.
  - destruct (List.find _ (channels w)) as [c|]; [|exact Hclean].
    simpl in Hids.
    destruct (decide (Exists (fun m => msg_id m = msg_id newMessage) (messages (store w))))
      as [H|H].
    + rewrite onInsert_present by exact H. exact Hclean.
    + destruct (onInsert_fresh_world (ch_conversationId c) newMessage w H) as (_ & -> & _).
      apply cache_clean_insert; [exact Hclean|].
      apply Forall_app. split; [apply filter_nontemp_Forall|].
      constructor; [exact Hids | constructor].
Qed.

(** Placeholders are never written to the device cache: when the messages
    that come from the server carry server ids, a cache free of placeholder
    entries stays so through every run of the store, whatever is sent. *)
Theorem placeholders_never_cached acts w :
  Forall server_ids acts ->
  cache_clean (localStorage w) ->
  cache_clean (localStorage (run_actions acts w)).
Proof.
  intros Hacts. revert w. induction Hacts as [|a acts Ha _ IH]; intros w Hclean.
  - exact Hclean.
  - cbn [run_actions fold_left]. apply IH. apply step_cache_clean; assumption.
Qed.

Lemma placeholders_never_cached_witness :
  cache_clean (localStorage
    (run_actions
       [ASendMessage "Hello" None "1700000000000" "0.42" "2024-01-01T00:00:03.000Z";
        ARealtimeInsert 0 (Samples.stored_message "m-2" (Some "Hello"))]
       (Samples.world_with []))).
Proof.
  apply (placeholders_never_cached
           [ASendMessage "Hello" None "1700000000000" "0.42" "2024-01-01T00:00:03.000Z";
            ARealtimeInsert 0 (Samples.stored_message "m-2" (Some "Hello"))]
           (Samples.world_with [])).
  - repeat constructor.
  - intros key l H. simpl in H. rewrite lookup_empty in H. discriminate.
Defined.

(** ** Subscribing *)

Lemma subscribeToMessages_slot conversationId w :
  activeSubscription (fst (subscribeToMessages conversationId w)) =
    Some {| sub_conversationId := conversationId;
            sub_unsubscribe := snd (subscribeToMessages conversationId w) |}.
Proof.
  unfold subscribeToMessages.
  destruct (activeSubscription w) as [[cid ch]|] eqn:Hact; [|reflexivity].
  destruct (decide _) as [Heq|Hne]; [|reflexivity].
  simpl in *. rewrite Hact, Heq. reflexivity.
Qed.

(** Subscribing again to the conversation already subscribed to opens
    nothing and returns the same [unsubscribe] closure, in every state. *)
Theorem subscribeToMessages_idempotent conversationId w :
  subscribeToMessages conversationId (fst (subscribeToMessages conversationId w)) =
  subscribeToMessages conversationId w.
Proof.
  pose proof (subscribeToMessages_slot conversationId w) as Hslot.
  destruct (subscribeToMessages conversationId w) as [w' ch] eqn:Hsub. simpl in *.
  unfold subscribeToMessages at 1. rewrite Hslot. simpl.
  destruct (decide (conversationId = conversationId)); [reflexivity | congruence].
Qed.

(** In a world the store reached without stale closures, the closure that
    [subscribeToMessages] returns undoes the subscription: after calling it
    no subscription is active and the slot is empty. *)
Theorem unsubscribe_closes_subscription ls w conversationId :
  reachable ls w ->
  let w' := unsubscribe (snd (subscribeToMessages conversationId w))
              (fst (subscribeToMessages conversationId w)) in
  active_subscriptions w' = [] /\ activeSubscription w' = None.
Proof.
  intros Hreach w'. subst w'.
  pose proof (reachable_slot_tracks_channels ls w Hreach) as Hinv.
  destruct (subscribeToMessages_one conversationId w Hinv) as [Hinv' _].
  pose proof (subscribeToMessages_slot conversationId w) as Hslot.
  destruct (unsubscribe_active _ _ Hinv' Hslot) as [Hch Hact].
  split; [|reflexivity].
  exact (f_equal (map ch_conversationId) Hch).
Qed.

Lemma unsubscribe_closes_subscription_witness :
  active_subscriptions
    (unsubscribe
       (snd (subscribeToMessages "conv-b" (initial_world Samples.storage_with_visitor)))
       (fst (subscribeToMessages "conv-b" (initial_world Samples.storage_with_visitor)))) = [].
Proof.
  apply (proj1 (unsubscribe_closes_subscription Samples.storage_with_visitor
                  (initial_world Samples.storage_with_visitor) "conv-b"
                  (reachable_initial Samples.storage_with_visitor))).
Defined.

(** A conversation that was created becomes the current one with the
    messages of the response, and exactly one subscription is active
    afterwards, for it. *)
Theorem created_conversation_subscribed ls w conversation msgs :
  reachable ls w ->
  let w' := createConversation_done (CreateOk conversation msgs) w in
  currentConversation (store w') = Some conversation /\
  messages (store w') = default [] msgs /\
  isLoading (store w') = false /\
  active_subscriptions w' = [conv_id conversation].
Proof.
  intros Hreach w'. subst w'. unfold createConversation_done.
  pose proof (reachable_slot_tracks_channels ls w Hreach) as Hinv.
  match goal with
  | |- context [subscribeToMessages ?cid ?w1] =>
      destruct (subscribeToMessages_store cid w1) as [Hstore _];
      destruct (subscribeToMessages_one cid w1 Hinv) as [_ Hone]
  end.
  rewrite Hstore, Hone. repeat split.
Qed.

Lemma created_conversation_subscribed_witness :
  active_subscriptions
    (createConversation_done (CreateOk Samples.conversation_b None)
       (Samples.world_with [])) = ["conv-b"].
Proof.
  refine (proj2 (proj2 (proj2 (created_conversation_subscribed
            Samples.storage_with_visitor (Samples.world_with [])
            Samples.conversation_b None _)))).
  change (Samples.world_with [])
    with (step (ALoadConversationMessagesDone "conv-a" (LoadOk None))
            (step (ASetCurrentConversation (Some Samples.conversation_a))
               (step (ALoadConversationsDone (Some [Samples.conversation_a]))
                  (initial_world Samples.storage_with_visitor)))).
  repeat (apply reachable_step; [|exact I]). apply reachable_initial.
Defined.

End StoreCoverage.

(** * Further properties of the chat input *)

Section ChatInputCoverage.

Import Store ChatInput.

(** ** Choosing an image *)

Lemma allowedTypes_bucket : allowedTypes = Bucket.allowed_mime_types.
Proof. reflexivity. Qed.

(** The input takes a file exactly when the storage bucket would: one of
    the four image types and at most 5MB. A file it takes becomes the
    selected image, with its preview; a file it refuses changes nothing in
    the component and puts an error in the store. *)
Theorem image_selection_matches_bucket f dataUrl ui :
  (Bucket.accepts (file_type f) (file_size f) ->
   handleImageSelect (Some f) dataUrl ui =
     with_local (fun st => setImagePreview (Some dataUrl) (setSelectedImage (Some f) st)) ui) /\
  (~ Bucket.accepts (file_type f) (file_size f) ->
   local (handleImageSelect (Some f) dataUrl ui) = local ui /\
   requests (handleImageSelect (Some f) dataUrl ui) = requests ui /\
   is_Some (error (store (world (handleImageSelect (Some f) dataUrl ui))))).
Proof.
  unfold Bucket.accepts, handleImageSelect. rewrite <- allowedTypes_bucket.
  change Bucket.file_size_limit with (5 * 1024 * 1024)%Z.
  split.
  - intros [Htype Hsize].
    rewrite bool_decide_eq_true_2 by exact Htype. simpl negb. cbv iota.
    rewrite bool_decide_eq_false_2 by lia. reflexivity.
  - intros Hnot.
    destruct (decide (file_type f ∈ allowedTypes)) as [Htype|Htype].
    + rewrite bool_decide_eq_true_2 by exact Htype. simpl negb. cbv iota.
      rewrite bool_decide_eq_true_2 by (apply Z.nle_gt; intros Hle; apply Hnot; tauto).
      repeat split. eauto.
    + rewrite bool_decide_eq_false_2 by exact Htype. repeat split. eauto.
Qed.

Lemma image_selection_matches_bucket_witness :
  handleImageSelect (Some Samples.png) "data:image/png;base64,AAAA"
    (Samples.ui_with [] "" None) =
  with_local (fun st => setImagePreview (Some "data:image/png;base64,AAAA")
                          (setSelectedImage (Some Samples.png) st))
    (Samples.ui_with [] "" None).
Proof.
  apply (proj1 (image_selection_matches_bucket Samples.png "data:image/png;base64,AAAA"
                  (Samples.ui_with [] "" None))).
  split; [apply list_elem_of_In; simpl; tauto | vm_compute; discriminate].
Defined.

(** ** Submitting *)





Lemma submittable_guard anonymousId ui :
  submittable anonymousId ui ->
  isSubmitting (local ui) || isSending (store (world ui))
  || negb (bool_decide (is_Some (truthy (Some anonymousId))))
  || (bool_decide (trim (message (local ui)) = "")
      && negb (bool_decide (is_Some (selectedImage (local ui))))) = false.
Proof.
  intros (-> & -> & Hanon & Hdraft).
  rewrite truthy_of_nonempty by exact Hanon.
  rewrite (bool_decide_eq_true_2 (is_Some (Some anonymousId))) by eauto.
  simpl. destruct Hdraft as [Htext|Himg].
  - rewrite bool_decide_eq_false_2 by exact Htext. reflexivity.
  - rewrite (bool_decide_eq_true_2 (is_Some _)) by exact Himg.
    simpl. apply andb_false_r.
Qed.

(** When the upload of the selected image fails, nothing else is sent: the
    only request is the upload, the draft text and the selected image are
    kept for another try, the store shows the upload error, its messages
    are unchanged, and both busy flags are down again. *)
Theorem upload_failure_keeps_draft anonymousId o ui image :
  submittable anonymousId ui ->
  selectedImage (local ui) = Some image ->
  upload_url o = None ->
  let ui' := handleSubmit anonymousId o ui in
  requests ui' = requests ui ++ [ReqUpload] /\
  message (local ui') = message (local ui) /\
  selectedImage (local ui') = Some image /\
  isSubmitting (local ui') = false /\
  isUploading (local ui') = false /\
  error (store (world ui')) = Some "Failed to upload image. Please try again." /\
  messages (store (world ui')) = messages (store (world ui)).
Proof.
  intros Hready Himg Hupload ui'. subst ui'. unfold handleSubmit.
  rewrite (submittable_guard _ _ Hready), Himg, Hupload. simpl.
  rewrite Himg. repeat split.
Qed.

Lemma upload_failure_keeps_draft_witness :
  requests (handleSubmit "visitor-1" (Samples.oracle None)
              (Samples.ui_with [] "see photo" (Some Samples.png))) = [ReqUpload].
Proof.
  refine (proj1 (upload_failure_keeps_draft "visitor-1" (Samples.oracle None)
                   (Samples.ui_with [] "see photo" (Some Samples.png)) Samples.png
                   _ eq_refl eq_refl)).
  repeat split; try discriminate. left. discriminate.
Defined.





(** The "Start New Ticket" button clears the conversation in the store but
    leaves the realtime subscription open: an insert event for the old
    conversation that arrives afterwards is shown in the cleared list. *)
Theorem start_new_ticket_keeps_subscription anonymousId ui c ch channel newMessage :
  currentConversation (store (world ui)) = Some c ->
  conv_status c = StatusResolved \/ conv_status c = StatusClosed ->
  List.find (fun x => bool_decide (ch_id x = ch)) (channels (world ui)) = Some channel ->
  let ui' := dispatch anonymousId ClickStartNewTicket ui in
  channels (world ui') = channels (world ui) /\
  activeSubscription (world ui') = activeSubscription (world ui) /\
  currentConversation (store (world ui')) = None /\
  messages (store (step (ARealtimeInsert ch newMessage) (world ui'))) = [newMessage].
Proof.
  intros Hc Hstatus Hch ui'. subst ui'.
  destruct (SupportChatInput_gated _ (local ui) _ Hc Hstatus) as [notice Hview].
  unfold dispatch. rewrite Hview.
  split; [reflexivity|]. split; [reflexivity|]. split; [reflexivity|].
  cbn [step]. change (channels (world (startNewTicket ui))) with (channels (world ui)).
  rewrite Hch. rewrite onInsert_fresh_messages; [reflexivity|].
  intros E. inversion E.
Qed.

Lemma start_new_ticket_keeps_subscription_witness :
  messages (store (step (ARealtimeInsert 0 (Samples.stored_message "m-2" (Some "Hello")))
                     (world (dispatch "visitor-1" ClickStartNewTicket Samples.ui_resolved)))) =
    [Samples.stored_message "m-2" (Some "Hello")].
Proof.
  refine (proj2 (proj2 (proj2 (start_new_ticket_keeps_subscription
            "visitor-1" Samples.ui_resolved Samples.conversation_resolved 0
            {| ch_id := 0; ch_conversationId := "conv-a" |}
            (Samples.stored_message "m-2" (Some "Hello"))
            eq_refl (or_introl eq_refl) eq_refl)))).
Defined.

End ChatInputCoverage.

(** * Properties of the chat widget *)

Section WidgetCoverage.

Import Widget.

Variable getTime : string -> Z.

Lemma insert_sorted_elem c x l :
  x ∈ insert_sorted getTime c l <-> x = c \/ x ∈ l.
Proof.
  induction l as [|y l IH]; simpl.
  - rewrite list_elem_of_singleton. split; [auto|].
    intros [H|H]; [exact H | inversion H].
  - destruct (decide _).
    + rewrite elem_of_cons. reflexivity.
    + rewrite !elem_of_cons, IH. tauto.
Qed.

Lemma sort_elem x l : x ∈ sort getTime l <-> x ∈ l.
Proof.
  induction l as [|y l IH]; [reflexivity|].
  simpl. rewrite insert_sorted_elem, elem_of_cons, IH. reflexivity.
Qed.

Lemma insert_sorted_head c l :
  head_most_recent getTime l -> head_most_recent getTime (insert_sorted getTime c l).
Proof.
  destruct l as [|h t]; simpl.
  - intros _ x Hx. apply list_elem_of_singleton in Hx. subst. lia.
  - intros Hh. destruct (decide _) as [Hle|Hgt]; simpl.
    + intros x Hx. apply elem_of_cons in Hx as [->|Hx]; [lia|].
      specialize (Hh x Hx). lia.
    + intros x Hx. apply elem_of_cons in Hx as [->|Hx]; [lia|].
      apply insert_sorted_elem in Hx as [->|Hx]; [lia|].
      apply Hh. right. exact Hx.
Qed.

Lemma sort_head l : head_most_recent getTime (sort getTime l).
Proof.
  induction l as [|c l IH]; [exact I|]. simpl. apply insert_sorted_head, IH.
Qed.

Lemma sort_nonempty l : l <> [] -> exists c, head (sort getTime l) = Some c.
Proof.
  destruct l as [|x l]; [congruence|]. intros _.
  destruct (sort getTime (x :: l)) as [|c rest] eqn:Hsort; [|eauto].
  exfalso. assert (Hx : x ∈ sort getTime (x :: l)) by (apply sort_elem; left).
  rewrite Hsort in Hx. inversion Hx.
Qed.

(** When the conversations are loaded and none is current, the widget
    selects one of them: the first with the saved id when there is one, and
    otherwise a conversation that no other is more recent than, by the last
    message or else the creation time. It selects nothing when a
    conversation is already current or the list is empty. *)
Theorem restoreConversation_selects saved conversations :
  conversations <> [] ->
  (exists c,
     restoreConversation getTime saved conversations None = Some c /\
     c ∈ conversations /\
     (forall id, truthy saved = Some id ->
        (exists c', c' ∈ conversations /\ conv_id c' = id) -> conv_id c = id) /\
     ((forall id c', truthy saved = Some id -> c' ∈ conversations -> conv_id c' <> id) ->
      forall c', c' ∈ conversations -> (recency getTime c' <= recency getTime c)%Z)) /\
  (forall current,
     restoreConversation getTime saved conversations (Some current) = None) /\
  restoreConversation getTime saved [] None = None.
Proof.
  intros Hne. split; [|split; reflexivity].
  unfold restoreConversation.
  rewrite (bool_decide_eq_false_2 (is_Some None)) by (intros [x Hx]; discriminate).
  rewrite bool_decide_eq_false_2 by (destruct conversations; [congruence | discriminate]).
  simpl.
  destruct (sort_nonempty conversations Hne) as [recent Hrecent].
  assert (Hin : recent ∈ conversations).
  { apply sort_elem. destruct (sort getTime conversations); [discriminate|].
    injection Hrecent as ->. left. }
  assert (Hmax : forall c', c' ∈ conversations ->
                   (recency getTime c' <= recency getTime recent)%Z).
  { intros c' Hc'. pose proof (sort_head conversations) as Hhead.
    destruct (sort getTime conversations) as [|h t] eqn:Hsort; [discriminate|].
    injection Hrecent as ->. apply Hhead. rewrite <- Hsort. apply sort_elem, Hc'. }
  rewrite Hrecent.
  destruct (truthy saved) as [id|] eqn:Hsaved.
  - destruct (List.find _ conversations) as [found|] eqn:Hfind.
    + apply find_some in Hfind as [Hfound Hid].
      apply bool_decide_eq_true_1 in Hid.
      exists found. split; [reflexivity|]. split; [apply list_elem_of_In, Hfound|].
      split.
      * intros id' [= <-] _. exact Hid.
      * intros Hnone. exfalso.
        apply (Hnone id found eq_refl); [apply list_elem_of_In, Hfound | exact Hid].
    + exists recent. split; [reflexivity|]. split; [exact Hin|]. split.
      * intros id' [= <-] (c' & Hc' & Hid).
        apply list_elem_of_In in Hc'.
        pose proof (find_none _ _ Hfind c' Hc') as Hfalse. simpl in Hfalse.
        apply bool_decide_eq_false_1 in Hfalse. contradiction.
      * intros _. exact Hmax.
  - exists recent. split; [reflexivity|]. split; [exact Hin|]. split.
    + intros id' Hid'. discriminate.
    + intros _. exact Hmax.
Qed.

End WidgetCoverage.

Lemma restoreConversation_selects_witness :
  exists c,
    Widget.restoreConversation Samples.sample_time (Some "conv-z")
      [Samples.conversation_a; Samples.conversation_b] None = Some c /\
    c ∈ [Samples.conversation_a; Samples.conversation_b].
Proof.
  destruct (proj1 (restoreConversation_selects Samples.sample_time (Some "conv-z")
                     [Samples.conversation_a; Samples.conversation_b]
                     ltac:(discriminate))) as (c & Hc & Hin & _).
  exists c. split; assumption.
Defined.
